(** * Callisto: the agent orchestration state machine and the client tool registry

    A shallow embedding of
    - [apps/callisto-agent-service/src/app/agent-state.ts]: the agent session
      state, the conditional edge [shouldContinue], the two nodes it routes
      to and the channel reducers;
    - [libs/callisto/src/lib/services/tool-registry.ts]: the client-side
      [ToolRegistryService];
    - [libs/shared-types/src/lib/api-contract.ts]: the message shapes the nodes build;
    - the [POST /render] handler of the rendering service, the form builder
      and the dynamic form of the library, the chat service and the chat panel.

    TypeScript objects are records, [Record<string, _>] is a [gmap] on its own
    keys with the properties every plain object inherits beside them, the
    insertion-ordered [Map] of the registry is an association list,
    exceptions and console / network / tool-function calls are made explicit
    by a small trace-and-exception monad. *)

From stdpp Require Import base option list strings gmap fin_maps.

Set Default Proof Using "Type".

(** ** Effects: a trace of observable calls and a thrown value or a result *)

Definition Eff (E X A : Type) : Type := list E * (X + A).

Definition eff_ret {E X A} (a : A) : Eff E X A := ([], inr a).
Definition throw {E X A} (x : X) : Eff E X A := ([], inl x).
Definition emit {E X} (e : E) : Eff E X unit := ([e], inr tt).

Definition eff_bind {E X A B} (m : Eff E X A) (k : A -> Eff E X B) : Eff E X B :=
  match m with
  | (t, inl x) => (t, inl x)
  | (t, inr a) => let '(t', r) := k a in (t ++ t', r)
  end.

(** [try { m } catch (error) { h error }] *)
Definition try_catch {E X A} (m : Eff E X A) (h : X -> Eff E X A) : Eff E X A :=
  match m with
  | (t, inl x) => let '(t', r) := h x in (t ++ t', r)
  | (t, inr a) => (t, inr a)
  end.

(** [await p] for a promise that has settled to a rejection or a value. *)
Definition await {E X A} (p : X + A) : Eff E X A := ([], p).

Definition trace {E X A} (m : Eff E X A) : list E := fst m.
Definition outcome {E X A} (m : Eff E X A) : X + A := snd m.

Declare Scope eff_scope.
Delimit Scope eff_scope with eff.
Notation "'let*' x ':=' m 'in' k" := (eff_bind m (fun x => k))
  (at level 10, x pattern, m at level 100, k at level 200) : eff_scope.

(** ** The zod schema library, as far as the repository calls it *)

Class ZodLib := {
  (** [any]: tool arguments, tool results *)
  JsValue : Type;
  (** [z.ZodObject<any>] *)
  ZodObject : Type;
  (** [z.ZodError] *)
  ZodError : Type;
  (** the plain object [zodToJsonSchema] returns *)
  JsonSchema : Type;
  (** [schema.safeParse(v)]: [inr data] is [{success: true, data}],
      [inl error] is [{success: false, error}] *)
  safeParse : ZodObject -> JsValue -> ZodError + JsValue;
  (** [schema.description], set by [.describe(..)] *)
  schema_description : ZodObject -> option string;
  (** [error.message] *)
  zod_message : ZodError -> string;
  zodToJsonSchema : ZodObject -> JsonSchema;
}.

Definition success `{ZodLib} (validation : ZodError + JsValue) : bool :=
  match validation with inr _ => true | inl _ => false end.

(** What a JavaScript [throw] (or a rejected promise) can carry. *)
Inductive JsThrown `{ZodLib} : Type :=
  | JsError (message : string)       (* new Error(message), TypeError, AxiosError *)
  | JsZodError (error : ZodError)    (* instanceof z.ZodError *)
  | JsOther (v : JsValue).

(** [schema.parse(v)] is [safeParse] that throws the [ZodError]. *)
Definition parse `{ZodLib} {E} (schema : ZodObject) (v : JsValue) : Eff E JsThrown JsValue :=
  match safeParse schema v with
  | inr data => eff_ret data
  | inl error => throw (JsZodError error)
  end.

(** JavaScript truthiness of a [string | undefined]: [undefined] and the
    empty string are falsy. *)
Definition truthy (s : option string) : bool :=
  match s with
  | None => false
  | Some EmptyString => false
  | Some (String _ _) => true
  end.

Definition dquote : string := String (Ascii.ascii_of_nat 34) EmptyString.

(** [t.includes(s)] on strings, as a proposition. *)
Definition is_substring (s t : string) : Prop :=
  exists pre post : string, t = pre +:+ s +:+ post.

(** ** libs/shared-types/src/lib/api-contract.ts *)

Module ApiContract.
Section Messages.
Context `{ZodLib}.

(** [ToolCallMessage] *)
Record ToolCallMessage := {
  tcm_type : string;            (* z.literal('tool_call') *)
  tcm_name : string;
  tcm_params : JsValue;
  tcm_tool_call_id : option string;
}.

(** [RenderHtmlMessage]; [schema] is [z.any()], a pass-through object *)
Record RenderHtmlMessage := {
  rh_type : string;             (* z.literal('render_html') *)
  rh_html : string;
  rh_component_id : string;
  rh_message : option string;
  rh_schema : ZodObject;
  rh_toolName : string;
}.
End Messages.
End ApiContract.

(** ** apps/callisto-agent-service/src/app/agent-state.ts *)

Module AgentService.
Import ApiContract.

Section Types.
Context `{ZodLib}.

(** [AgentToolDefinition]: what the agent knows of a tool *)
Record AgentToolDefinition := {
  name : string;
  description : string;
  schema : ZodObject;
}.

(** A tool call of a model response (langchain's [ToolCall]) *)
Record ToolCall := {
  tc_name : string;
  tc_args : JsValue;
  tc_id : option string;
  tc_type : option string;
}.

(** langchain's [AIMessage], the fields the service reads and writes *)
Record AIMessage := {
  content : string;
  tool_calls : option (list ToolCall);
  additional_kwargs_type : option string;
}.

(** [BaseMessage]: [lastMessage instanceof AIMessage] is the match on [AI] *)
Inductive BaseMessage :=
  | AI (m : AIMessage)
  | HumanMessage (text : string)
  | SystemMessage (text : string)
  | ToolMessage (text : string) (tool_call_id : string).

Record AgentState := {
  messages : list BaseMessage;
  tool_definitions : gmap string AgentToolDefinition;
  requires_user_input : bool;
  pending_tool_name : option string;
}.

(** [Partial<AgentState>]: the keys a node returns *)
Record PartialAgentState := {
  p_messages : option (list BaseMessage);
  p_tool_definitions : option (gmap string AgentToolDefinition);
  p_requires_user_input : option bool;
  p_pending_tool_name : option (option string);
}.

(** The body the service posts to the rendering service *)
Record RenderRequest := {
  component : string;
  rq_schema : JsonSchema;
  rq_toolName : string;
}.

(** [response.data] of a 2xx answer of the rendering service: [{ html }] *)
Record AxiosResponse := { data_html : string }.

Inductive Event :=
  | AxiosPost (url : string) (body : RenderRequest)
  | ConsoleError (msg : string) (error : JsThrown).

Inductive Route := tool_executor | human_in_the_loop | END.
End Types.

Section Nodes.
Context `{ZodLib}.
(** [String.prototype.toLowerCase] and [JSON.stringify] of the runtime *)
Variable toLowerCase : string -> string.
Variable JSON_stringify : RenderHtmlMessage -> string.
(** How [axios.post(url, body)] settles: rejected or a 2xx response *)
Variable axios_post : string -> RenderRequest -> JsThrown + AxiosResponse.

Local Open Scope eff_scope.

Definition UI_RENDERING_SERVICE_URL : string := "http://localhost:4000/render".

(** [state.messages[state.messages.length - 1]] *)
Definition lastMessageOf (state : AgentState) : option BaseMessage :=
  last (messages state).

Definition only_messages (ms : list BaseMessage) : PartialAgentState :=
  {| p_messages := Some ms; p_tool_definitions := None;
     p_requires_user_input := None; p_pending_tool_name := None |}.

(** The local [toolCallMessage] of [toolExecutorNode] *)
Definition toolCallMessage (toolCall : ToolCall) : ToolCallMessage :=
  {| tcm_type := "tool_call";
     tcm_name := tc_name toolCall;
     tcm_params := tc_args toolCall;
     tcm_tool_call_id := tc_id toolCall |}.

Definition toolExecutorNode (state : AgentState) : Eff Event JsThrown PartialAgentState :=
  match lastMessageOf state with
  | Some (AI lastMessage) =>
      match tool_calls lastMessage with
      | None => throw (JsError "Invalid state: Expected an AIMessage with tool_calls.")
      | Some [] =>
          (* tool_calls[0] is undefined; reading .name of it is a TypeError *)
          throw (JsError "Cannot read properties of undefined (reading 'name')")
      | Some (toolCall :: _) =>
          (* toolCallMessage is built here and not used *)
          let _ := toolCallMessage toolCall in
          let customToolCallMessage :=
            {| content := EmptyString;
               tool_calls := Some [ {| tc_name := tc_name toolCall;
                                       tc_args := tc_args toolCall;
                                       tc_id := tc_id toolCall;
                                       tc_type := Some "tool_call" |} ];
               additional_kwargs_type := None |} in
          eff_ret (only_messages [AI customToolCallMessage])
      end
  | _ => throw (JsError "Invalid state: Expected an AIMessage with tool_calls.")
  end.

Definition apology : string :=
  "Sorry, I'm having trouble generating the form right now. Please try again in a moment.".

(** [new AIMessage({content})]: the constructor leaves [tool_calls] at its
    default, the empty array. *)
Definition errorMessage : AIMessage :=
  {| content := apology; tool_calls := Some []; additional_kwargs_type := None |}.

Definition renderRequest (tool : AgentToolDefinition) : RenderRequest :=
  {| component := "agentic-dynamic-form";
     rq_schema := zodToJsonSchema (schema tool);
     rq_toolName := name tool |}.

Definition renderMessage (tool : AgentToolDefinition) (componentHtml : string)
  : RenderHtmlMessage :=
  {| rh_type := "render_html";
     rh_html := componentHtml;
     rh_component_id := "dynamic-form";
     rh_message := Some ("I need some more information to "
                         +:+ toLowerCase (description tool) +:+ ".");
     rh_schema := schema tool;
     rh_toolName := name tool |}.

Definition customRenderMessage (tool : AgentToolDefinition) (componentHtml : string)
  : AIMessage :=
  {| content := JSON_stringify (renderMessage tool componentHtml);
     tool_calls := Some [];
     additional_kwargs_type := Some "agentic_ui_render_html" |}.

(** [tool_definitions] is a plain object (the reducer builds it with a
    spread), so reading a property by name also finds what every object
    inherits from [Object.prototype]: functions, and the prototype itself
    under [__proto__]. *)
Definition Object_prototype_keys : list string :=
  ["constructor"; "__defineGetter__"; "__defineSetter__"; "hasOwnProperty";
   "__lookupGetter__"; "__lookupSetter__"; "isPrototypeOf"; "propertyIsEnumerable";
   "toString"; "valueOf"; "__proto__"; "toLocaleString"].

(** The value of [tool_definitions[key]] *)
Inductive PropertyValue :=
  | OwnValue (tool : AgentToolDefinition)   (* an entry of the catalog *)
  | InheritedValue                          (* truthy, and its .schema is undefined *)
  | NoValue.                                (* undefined *)

Definition get_property (o : gmap string AgentToolDefinition) (key : string)
  : PropertyValue :=
  match o !! key with
  | Some tool => OwnValue tool
  | None => if bool_decide (key ∈ Object_prototype_keys) then InheritedValue else NoValue
  end.

Definition humanInTheLoopNode (state : AgentState) : Eff Event JsThrown PartialAgentState :=
  if negb (truthy (pending_tool_name state)) then
    throw (JsError "Invalid state: pending_tool_name is not set.")
  else
    let pending := default EmptyString (pending_tool_name state) in
    let on_error : JsThrown -> Eff Event JsThrown (PartialAgentState + string) :=
      fun error =>
        let* _ := emit (ConsoleError
                          "Failed to render component via rendering service:" error) in
        eff_ret (inl (only_messages [AI errorMessage])) in
    match get_property (tool_definitions state) pending with
    | NoValue => throw (JsError ("Tool " +:+ pending +:+ " not found."))
    | InheritedValue =>
        (* the guard lets it through; tool.schema is undefined and
           zodToJsonSchema throws on it, inside the try, before anything
           is posted *)
        let* rendered :=
          try_catch
            (throw (JsError "Cannot read properties of undefined (reading '_def')"))
            on_error in
        match rendered with
        | inl early_return => eff_ret early_return
        | inr _ =>
            throw (JsError "Cannot read properties of undefined (reading 'toLowerCase')")
        end
    | OwnValue tool =>
        let* rendered :=
          try_catch
            (let* _ := emit (AxiosPost UI_RENDERING_SERVICE_URL (renderRequest tool)) in
             let* response := await (axios_post UI_RENDERING_SERVICE_URL (renderRequest tool)) in
             eff_ret (inr (data_html response)))
            on_error in
        match rendered with
        | inl early_return => eff_ret early_return
        | inr componentHtml =>
            eff_ret (only_messages [AI (customRenderMessage tool componentHtml)])
        end
    end.

(** The conditional edge. It assigns to fields of [state]; the state after
    the call is the second component. *)
Definition shouldContinue (state : AgentState) : Route * AgentState :=
  match lastMessageOf state with
  | Some (AI lastMessage) =>
      match tool_calls lastMessage with
      | Some (toolCall :: _) =>
          match schema <$> (tool_definitions state !! tc_name toolCall) with
          | None => (END, state)
          | Some toolSchema =>
              let validation := safeParse toolSchema (tc_args toolCall) in
              if negb (success validation) then
                (human_in_the_loop,
                 {| messages := messages state;
                    tool_definitions := tool_definitions state;
                    requires_user_input := true;
                    pending_tool_name := Some (tc_name toolCall) |})
              else
                (tool_executor,
                 {| messages := messages state;
                    tool_definitions := tool_definitions state;
                    requires_user_input := false;
                    pending_tool_name := None |})
          end
      | _ => (END, state)
      end
  | _ => (END, state)
  end.

(** The channel reducers of [Annotation.Root]: how a node's partial
    result is folded into the session state. *)
Definition reduce_messages (x y : list BaseMessage) : list BaseMessage := x ++ y.
Definition reduce_tool_definitions (x y : gmap string AgentToolDefinition)
  : gmap string AgentToolDefinition := y ∪ x.
Definition reduce_last {A} (_ y : A) : A := y.

Definition apply_update (state : AgentState) (u : PartialAgentState) : AgentState :=
  {| messages :=
       from_option (reduce_messages (messages state)) (messages state) (p_messages u);
     tool_definitions :=
       from_option (reduce_tool_definitions (tool_definitions state))
                   (tool_definitions state) (p_tool_definitions u);
     requires_user_input :=
       from_option (reduce_last (requires_user_input state))
                   (requires_user_input state) (p_requires_user_input u);
     pending_tool_name :=
       from_option (reduce_last (pending_tool_name state))
                   (pending_tool_name state) (p_pending_tool_name u) |}.
End Nodes.

Section Observations.
Context `{ZodLib}.

(** [m instanceof AIMessage] *)
Definition is_AIMessage (m : BaseMessage) : bool :=
  match m with AI _ => true | _ => false end.

(** The tool calls a message carries; none for a message that is not a
    model response, and none when [tool_calls] is undefined. *)
Definition invocations (m : BaseMessage) : list ToolCall :=
  match m with AI a => default [] (tool_calls a) | _ => [] end.

(** The model response at the end of the history and its first tool call *)
Definition first_tool_call (state : AgentState) : option ToolCall :=
  match lastMessageOf state with
  | Some (AI lastMessage) => tool_calls lastMessage ≫= head
  | _ => None
  end.

(** A message is a render directive when it carries the marker the chat
    service looks for in [additional_kwargs.type]. *)
Definition is_render_directive (m : BaseMessage) : bool :=
  match m with
  | AI a => bool_decide (additional_kwargs_type a = Some "agentic_ui_render_html")
  | _ => false
  end.

Definition is_AxiosPost (e : Event) : bool :=
  match e with AxiosPost _ _ => true | _ => false end.

(** The compiled graph after the agent node: the conditional edge picks
    the node, and the node runs on the channel values. The edge was handed
    a reading of the channels of its own, so what it assigned to that
    object is not in the channels (no node returns [requires_user_input]
    or [pending_tool_name]); the node's update is then reduced in. *)
Definition route_and_run (toLowerCase : string -> string)
    (JSON_stringify : RenderHtmlMessage -> string)
    (axios_post : string -> RenderRequest -> JsThrown + AxiosResponse)
    (state : AgentState) : Eff Event JsThrown AgentState :=
  match fst (shouldContinue state) with
  | tool_executor =>
      eff_bind (toolExecutorNode state) (fun u => eff_ret (apply_update state u))
  | human_in_the_loop =>
      eff_bind (humanInTheLoopNode toLowerCase JSON_stringify axios_post state)
               (fun u => eff_ret (apply_update state u))
  | END => eff_ret state
  end.

(** The session state the graph starts a request with: the channel
    defaults of [Annotation.Root] with the posted history and catalog
    reduced into them. *)
Definition initial_state (history : list BaseMessage)
    (catalog : gmap string AgentToolDefinition) : AgentState :=
  apply_update
    {| messages := []; tool_definitions := ∅;
       requires_user_input := false; pending_tool_name := None |}
    {| p_messages := Some history; p_tool_definitions := Some catalog;
       p_requires_user_input := None; p_pending_tool_name := None |}.
End Observations.
End AgentService.

(** ** libs/callisto/src/lib/services/tool-registry.ts *)

Module ToolRegistry.

(** A JavaScript [Map<string, V>]: keys are unique and iteration follows
  the order of first insertion. *)
Section JsMap.
Context {V : Type}.

Definition JsMap := list (string * V).

Fixpoint map_get (k : string) (m : JsMap) : option V :=
  match m with
  | [] => None
  | (k', v) :: m' => if decide (k' = k) then Some v else map_get k m'
  end.

Definition map_has (k : string) (m : JsMap) : bool := bool_decide (is_Some (map_get k m)).

Fixpoint map_set (k : string) (v : V) (m : JsMap) : JsMap :=
  match m with
  | [] => [(k, v)]
  | (k', v') :: m' => if decide (k' = k) then (k, v) :: m' else (k', v') :: map_set k v m'
  end.

Definition map_values (m : JsMap) : list V := m.*2.
End JsMap.
Arguments JsMap : clear implicits.

Section Registry.
Context `{ZodLib}.

Local Open Scope eff_scope.

Record ToolDefinition := {
  name : string;
  description : string;
  schema : ZodObject;
  (** the promise [toolFn(params)] returns, settled *)
  toolFn : JsValue -> JsThrown + JsValue;
  permissions : list string;
}.

Record AgentToolDefinition := {
  a_name : string;
  a_description : string;
  a_schema : ZodObject;
}.

Inductive Event :=
  | ConsoleWarn (msg : string)
  | ConsoleLog (msg : string) (params : JsValue)
  | ConsoleError (msg : string) (error : JsThrown)
  | ToolFnCall (tool : string) (params : JsValue).

(** [a || b] on a [string | undefined] left operand *)
Definition or_default (a : option string) (b : string) : string :=
  if truthy a then default b a else b.

(** [registerTool(name, toolFn, schema, permissions = [])] on the private
    [tools] map: the warning it may print and the map afterwards. *)
Definition registerTool (name0 : string) (toolFn0 : JsValue -> JsThrown + JsValue)
    (schema0 : ZodObject) (permissions0 : option (list string))
    (tools : JsMap ToolDefinition) : list Event * JsMap ToolDefinition :=
  let permissions1 := default [] permissions0 in
  let warning :=
    if map_has name0 tools then
      [ConsoleWarn ("Tool with name " +:+ dquote +:+ name0 +:+ dquote
                    +:+ " is already registered. Overwriting.")]
    else [] in
  let description0 := or_default (schema_description schema0) "No description provided." in
  (warning,
   map_set name0
     {| name := name0; description := description0; schema := schema0;
        toolFn := toolFn0; permissions := permissions1 |}
     tools).

(** [currentUserPermissions.includes(p)] *)
Definition includes (l : list string) (p : string) : bool := bool_decide (p ∈ l).

Definition isAuthorized (currentUserPermissions : list string) (tool : ToolDefinition) : bool :=
  (length (permissions tool) =? 0)
  || existsb (fun p => includes currentUserPermissions p) (permissions tool).

Definition project (tool : ToolDefinition) : AgentToolDefinition :=
  {| a_name := name tool; a_description := description tool; a_schema := schema tool |}.

(** The [for (const tool of ...)] loop with its accumulator *)
Fixpoint authorize_loop (currentUserPermissions : list string)
    (values : list ToolDefinition) (authorizedTools : list AgentToolDefinition)
  : list AgentToolDefinition :=
  match values with
  | [] => authorizedTools
  | tool :: rest =>
      if isAuthorized currentUserPermissions tool
      then authorize_loop currentUserPermissions rest (authorizedTools ++ [project tool])
      else authorize_loop currentUserPermissions rest authorizedTools
  end.

Definition getToolDefinitionsForAgent (tools : JsMap ToolDefinition)
    (currentUserPermissions : list string) : list AgentToolDefinition :=
  authorize_loop currentUserPermissions (map_values tools) [].

Definition executeTool (tools : JsMap ToolDefinition) (name0 : string) (params : JsValue)
  : Eff Event JsThrown JsValue :=
  match map_get name0 tools with
  | None => throw (JsError ("Tool " +:+ dquote +:+ name0 +:+ dquote +:+ " not found."))
  | Some tool =>
      let* _ := emit (ConsoleLog ("Executing tool: " +:+ name0 +:+ " with params:") params) in
      try_catch
        (let* _ := parse (schema tool) params in
         let* _ := emit (ToolFnCall (name tool) params) in
         await (toolFn tool params))
        (fun error =>
           let* _ := emit (ConsoleError
                             ("Error executing tool " +:+ dquote +:+ name0 +:+ dquote +:+ ":")
                             error) in
           match error with
           | JsZodError e =>
               throw (JsError ("Invalid parameters for tool " +:+ name0 +:+ ": "
                               +:+ zod_message e))
           | _ => throw error
           end)
  end.

(** The registries a host application can build: [registerTool] calls on
    the initially empty map. *)
Record Registration := {
  r_name : string;
  r_toolFn : JsValue -> JsThrown + JsValue;
  r_schema : ZodObject;
  r_permissions : option (list string);
}.

Definition register_all (rs : list Registration) : JsMap ToolDefinition :=
  fold_left
    (fun tools r =>
       snd (registerTool (r_name r) (r_toolFn r) (r_schema r) (r_permissions r) tools))
    rs [].

(** Every entry is stored under its own name, and no key occurs twice. *)
Definition well_keyed (tools : JsMap ToolDefinition) : Prop :=
  NoDup tools.*1 /\ Forall (fun kv => name kv.2 = kv.1) tools.

Definition is_ToolFnCall (e : Event) : bool :=
  match e with ToolFnCall _ _ => true | _ => false end.

Definition not_found (name0 : string) : JsThrown :=
  JsError ("Tool " +:+ dquote +:+ name0 +:+ dquote +:+ " not found.").

Definition invalid_parameters (name0 : string) (e : ZodError) : JsThrown :=
  JsError ("Invalid parameters for tool " +:+ name0 +:+ ": " +:+ zod_message e).
End Registry.
End ToolRegistry.

(** ** A small instance of the schema library and the demo application

    Enough of zod's object and string checks to run the schema the demo
    application registers ([registerTools] of the host [App]):
    [z.object({departureCity: z.string().nonempty(), arrivalCity:
    z.string().nonempty(), departureDate: z.string()})
    .describe('Search for available flights')]. *)

Module Demo.
#[local] Set Warnings "-register-all".

Inductive Json :=
  | JUndefined
  | JStr (s : string)
  | JArr (items : list Json)
  | JObj (fields : list (string * Json)).

Inductive ZodType := ZString (nonempty : bool).

Record ZObject := {
  shape : list (string * ZodType);
  described : option string;
}.

(** an issue: the path joined by dots, and the message *)
Definition ZodIssue : Type := string * string.

Fixpoint field (k : string) (fields : list (string * Json)) : Json :=
  match fields with
  | [] => JUndefined
  | (k', v) :: rest => if decide (k' = k) then v else field k rest
  end.

Definition check (k : string) (ty : ZodType) (v : Json) : list ZodIssue :=
  match ty, v with
  | ZString _, JUndefined => [(k, "Required")]
  | ZString true, JStr EmptyString => [(k, "String must contain at least 1 character(s)")]
  | ZString _, JStr _ => []
  | ZString _, _ => [(k, "Expected string")]
  end.

Definition strip (sh : list (string * ZodType)) (fields : list (string * Json))
  : list (string * Json) :=
  map (fun '(k, _) => (k, field k fields)) sh.

Definition demo_safeParse (s : ZObject) (v : Json) : list ZodIssue + Json :=
  match v with
  | JObj fields =>
      match flat_map (fun '(k, ty) => check k ty (field k fields)) (shape s) with
      | [] => inr (JObj (strip (shape s) fields))
      | issues => inl issues
      end
  | _ => inl [(EmptyString, "Expected object")]
  end.

Definition demo_message (issues : list ZodIssue) : string :=
  fold_right (fun '(path, msg) acc => path +:+ ": " +:+ msg +:+ "; " +:+ acc)
             EmptyString issues.

#[global] Instance MiniZod : ZodLib := {|
  JsValue := Json;
  ZodObject := ZObject;
  ZodError := list ZodIssue;
  JsonSchema := list (string * ZodType);
  safeParse := demo_safeParse;
  schema_description := described;
  zod_message := demo_message;
  zodToJsonSchema := shape;
|}.

(** ASCII lower-casing, standing in for [String.prototype.toLowerCase] *)
Definition lower_ascii (c : Ascii.ascii) : Ascii.ascii :=
  let n := Ascii.nat_of_ascii c in
  if (65 <=? n) && (n <=? 90) then Ascii.ascii_of_nat (n + 32) else c.

Fixpoint demo_toLowerCase (s : string) : string :=
  match s with
  | EmptyString => EmptyString
  | String c r => String (lower_ascii c) (demo_toLowerCase r)
  end.

(** A field-by-field rendering standing in for [JSON.stringify] on a
    render directive; the schema object is left out and nothing is escaped. *)
Definition demo_stringify (m : ApiContract.RenderHtmlMessage) : string :=
  "{type:" +:+ ApiContract.rh_type m
  +:+ ",html:" +:+ ApiContract.rh_html m
  +:+ ",component_id:" +:+ ApiContract.rh_component_id m
  +:+ ",message:" +:+ default EmptyString (ApiContract.rh_message m)
  +:+ ",toolName:" +:+ ApiContract.rh_toolName m +:+ "}".

Definition flightSearchSchema : ZObject :=
  {| shape := [("departureCity", ZString true);
               ("arrivalCity", ZString true);
               ("departureDate", ZString false)];
     described := Some "Search for available flights" |}.

Definition searchFlights (params : Json) : JsThrown + Json :=
  inr (JObj [("status", JStr "success");
             ("flights",
              JArr [JObj [("flight", JStr "UA123"); ("departs", JStr "08:00");
                          ("arrives", JStr "10:30")];
                    JObj [("flight", JStr "AA456"); ("departs", JStr "09:15");
                          ("arrives", JStr "11:45")]])]).

(** The registry after [ngOnInit] *)
Definition demo_tools : ToolRegistry.JsMap ToolRegistry.ToolDefinition :=
  ToolRegistry.register_all
    [ {| ToolRegistry.r_name := "searchFlights";
         ToolRegistry.r_toolFn := searchFlights;
         ToolRegistry.r_schema := flightSearchSchema;
         ToolRegistry.r_permissions := None |} ].

(** The catalog the chat panel sends: [getToolDefinitionsForAgent([])],
    keyed by name on the server side *)
Definition flightSearchTool : AgentService.AgentToolDefinition :=
  {| AgentService.name := "searchFlights";
     AgentService.description := "Search for available flights";
     AgentService.schema := flightSearchSchema |}.

Definition demo_catalog : gmap string AgentService.AgentToolDefinition :=
  {[ "searchFlights" := flightSearchTool ]}.

Definition call (nm : string) (a : Json) (i : string) : AgentService.ToolCall :=
  {| AgentService.tc_name := nm; AgentService.tc_args := a;
     AgentService.tc_id := Some i; AgentService.tc_type := None |}.

Definition model_response (calls : option (list AgentService.ToolCall)) : AgentService.BaseMessage :=
  AgentService.AI {| AgentService.content := EmptyString;
                     AgentService.tool_calls := calls;
                     AgentService.additional_kwargs_type := None |}.

Definition session (ms : list AgentService.BaseMessage) : AgentService.AgentState :=
  {| AgentService.messages := ms;
     AgentService.tool_definitions := demo_catalog;
     AgentService.requires_user_input := false;
     AgentService.pending_tool_name := None |}.

(** A tool that checks the answer of its upstream service with a zod
    schema of its own and rejects with that [ZodError]. *)
Definition fareIssues : list ZodIssue := [("price", "Required")].
Definition lookupFare (params : Json) : JsThrown + Json := inl (JsZodError fareIssues).

Definition fare_tools : ToolRegistry.JsMap ToolRegistry.ToolDefinition :=
  ToolRegistry.register_all
    [ {| ToolRegistry.r_name := "lookupFare";
         ToolRegistry.r_toolFn := lookupFare;
         ToolRegistry.r_schema := flightSearchSchema;
         ToolRegistry.r_permissions := Some ["agent"] |} ].

Definition partial_args : Json := JObj [("departureCity", JStr "NYC")].
Definition full_args : Json :=
  JObj [("departureCity", JStr "NYC"); ("arrivalCity", JStr "SFO");
        ("departureDate", JStr "2025-01-01")].

(** The user asked for flights; the model answered with two tool calls. *)
Definition asked (a : Json) : AgentService.AgentState :=
  session [AgentService.HumanMessage "Find me a flight from NYC";
           model_response (Some [call "searchFlights" a "call_1";
                                 call "searchFlights" full_args "call_2"])].

(** The model asked for a tool the catalog does not have. *)
Definition hallucinated : AgentService.AgentState :=
  session [AgentService.HumanMessage "Book me a hotel";
           model_response (Some [call "bookHotel" full_args "call_1"])].

(** The model gave its final answer. *)
Definition answered : AgentService.AgentState :=
  session [AgentService.HumanMessage "Thanks";
           model_response (Some [])].

(** The session as [shouldContinue] leaves it on the way to the form *)
Definition paused : AgentService.AgentState :=
  {| AgentService.messages := AgentService.messages (asked partial_args);
     AgentService.tool_definitions := demo_catalog;
     AgentService.requires_user_input := true;
     AgentService.pending_tool_name := Some "searchFlights" |}.

(** A catalog that holds a tool under the empty name, with that name pending *)
Definition nameless : AgentService.AgentState :=
  {| AgentService.messages := AgentService.messages (asked partial_args);
     AgentService.tool_definitions :=
       {[ EmptyString :=
            {| AgentService.name := EmptyString;
               AgentService.description := "Search for available flights";
               AgentService.schema := flightSearchSchema |} ]};
     AgentService.requires_user_input := true;
     AgentService.pending_tool_name := Some EmptyString |}.

(** A session whose pending name the catalog lacks and every object inherits *)
Definition stray : AgentService.AgentState :=
  {| AgentService.messages := AgentService.messages (asked partial_args);
     AgentService.tool_definitions := demo_catalog;
     AgentService.requires_user_input := true;
     AgentService.pending_tool_name := Some "toString" |}.

(** rendering service down / up *)
Definition post_fails (_ : string) (_ : AgentService.RenderRequest)
  : JsThrown + AgentService.AxiosResponse := inl (JsError "connect ECONNREFUSED").
Definition post_ok (_ : string) (_ : AgentService.RenderRequest)
  : JsThrown + AgentService.AxiosResponse :=
  inr {| AgentService.data_html := "<agentic-dynamic-form></agentic-dynamic-form>" |}.
End Demo.

(** ** More of the registry: what a registration stores *)

Module RegistryViews.
Import ToolRegistry.
Section Views.
Context `{ZodLib}.

(** The entry [registerTool] stores for a call *)
Definition stored (r : Registration) : ToolDefinition :=
  {| name := r_name r;
     description := or_default (schema_description (r_schema r)) "No description provided.";
     schema := r_schema r;
     toolFn := r_toolFn r;
     permissions := default [] (r_permissions r) |}.

(** The calls of a sequence that register under [n] *)
Definition registrations_of (n : string) (rs : list Registration) : list Registration :=
  filter (fun r => r_name r = n) rs.

(** The same registry with other permission lists *)
Definition with_permissions (f : ToolDefinition -> list string)
    (tools : JsMap ToolDefinition) : JsMap ToolDefinition :=
  (fun kv : string * ToolDefinition =>
     (kv.1, {| name := name kv.2; description := description kv.2;
               schema := schema kv.2; toolFn := toolFn kv.2;
               permissions := f kv.2 |})) <$> tools.
End Views.
End RegistryViews.

(** ** apps/callisto-rendering-service: the [POST /render] handler of [server.ts] *)

Module RenderingService.
Section Handler.
Context `{ZodLib}.

Local Open Scope eff_scope.

(** A parsed [req.body], destructured: a key that is missing is
    [undefined]; for [schema], [None] also stands for any other falsy value. *)
Record RenderBody := {
  component : option string;
  schema : option JsonSchema;
  toolName : option string;
}.

Inductive ResponseBody :=
  | HtmlBody (html : string)      (* { html } *)
  | ErrorBody (error : string).   (* { error } *)

Record HttpResponse := { status : nat; body : ResponseBody }.

(** What the handler hands to [commonEngine.render], as far as it varies *)
Record RenderOptions := {
  document : string;
  url : string;
}.

Inductive Event :=
  | EngineRender (options : RenderOptions)
  | ConsoleError (msg : string) (error : JsThrown).

(** How [commonEngine.render(options)] settles *)
Variable commonEngine_render : RenderOptions -> JsThrown + string.

(** [res.send(body)] answers with status 200 unless [res.status(n)] was called *)
Definition send (b : ResponseBody) : HttpResponse := {| status := 200; body := b |}.

(** The handler from its check on, for a request whose body was parsed *)
Definition render_handler (originalUrl : string) (req_body : RenderBody)
  : Eff Event JsThrown HttpResponse :=
  if negb (truthy (component req_body)) || negb (bool_decide (is_Some (schema req_body))) then
    eff_ret {| status := 400;
               body := ErrorBody "Component selector and schema are required." |}
  else
    let component0 := default EmptyString (component req_body) in
    try_catch
      (let document0 := "<" +:+ component0 +:+ "></" +:+ component0 +:+ ">" in
       let options := {| document := document0; url := originalUrl |} in
       let* _ := emit (EngineRender options) in
       let* html := await (commonEngine_render options) in
       eff_ret (send (HtmlBody html)))
      (fun err =>
         let* _ := emit (ConsoleError "Error rendering component:" err) in
         eff_ret {| status := 500; body := ErrorBody "Failed to render component." |}).

(** The whole handler. [req.body] is [undefined] unless a body parser
    ran, and destructuring [undefined] throws: before the check, outside
    the [try], so nothing is sent. *)
Definition post_render (originalUrl : string) (req_body : option RenderBody)
  : Eff Event JsThrown HttpResponse :=
  match req_body with
  | None =>
      throw (JsError "Cannot destructure property 'component' of 'req.body' as it is undefined.")
  | Some parsed => render_handler originalUrl parsed
  end.

Definition is_EngineRender (e : Event) : bool :=
  match e with EngineRender _ => true | _ => false end.
End Handler.

(** *** The agent service talking to this service

    [axios.post] serialises the body and the service handles the request.
    [app()] mounts no body parser, so whatever was posted the handler finds
    [req.body] undefined. axios resolves with the parsed answer on a 2xx
    status and rejects otherwise, also when the handler threw and no such
    answer came. *)
Section Wire.
Context `{ZodLib}.
Variable commonEngine_render : RenderOptions -> JsThrown + string.

Definition body_of_request (rq : AgentService.RenderRequest) : RenderBody :=
  {| component := Some (AgentService.component rq);
     schema := Some (AgentService.rq_schema rq);
     toolName := Some (AgentService.rq_toolName rq) |}.



End Wire.
End RenderingService.

(** ** libs/callisto/src/lib/services/zod-form-builder.ts and
       libs/callisto/src/lib/components/dynamic-form/dynamic-form.ts *)


Record ZodIssue := {
  issue_path : list string;      (* the segments of issue.path, as join prints them *)
  issue_message : string;        (* issue.message *)
}.


Module FormBuilder.
Section Builder.
Context `{ZodForms}.






End Builder.
End FormBuilder.

Module DynamicForm.
Section Component.
Context `{ZodForms}.
(** [String.prototype.toUpperCase] of the runtime *)
Variable toUpperCase : string -> string.

Definition is_upper (c : Ascii.ascii) : bool :=
  let n := Ascii.nat_of_ascii c in (65 <=? n) && (n <=? 90).

Definition space : Ascii.ascii := Ascii.ascii_of_nat 32.

(** [text.replace(/([A-Z])/g, ' $1')] *)
Fixpoint space_capitals (text : string) : string :=
  match text with
  | EmptyString => EmptyString
  | String c rest =>
      if is_upper c then String space (String c (space_capitals rest))
      else String c (space_capitals rest)
  end.

(** A string is held as its UTF-8 bytes, [charAt] and [slice] count
    UTF-16 units. A unit of the basic plane is one to three bytes, as the
    first byte tells; a first byte of a four-byte sequence starts a
    surrogate pair, two units. *)
Definition first_unit_width (s : string) : nat :=
  match s with
  | EmptyString => 0
  | String c _ =>
      let n := Ascii.nat_of_ascii c in
      if n <? 128 then 1 else if n <? 224 then 2 else if n <? 240 then 3 else 4
  end.

Fixpoint take_bytes (n : nat) (s : string) : string :=
  match n, s with
  | S n', String c rest => String c (take_bytes n' rest)
  | _, _ => EmptyString
  end.

Fixpoint drop_bytes (n : nat) (s : string) : string :=
  match n, s with
  | S n', String _ rest => drop_bytes n' rest
  | _, _ => s
  end.

(** [s.charAt(0)] and [s.slice(1)], for [s] that does not begin with a
    surrogate pair *)
Definition charAt0 (s : string) : string := take_bytes (first_unit_width s) s.
Definition slice1 (s : string) : string := drop_bytes (first_unit_width s) s.

(** When [result] begins with a surrogate pair, [charAt(0)] is its first
    half, which upper-casing leaves alone, and [slice(1)] begins with the
    other half: the sum is [result]. *)
Definition camelCaseToTitleCase (text : string) : string :=
  let result := space_capitals text in
  if first_unit_width result =? 4 then result
  else toUpperCase (charAt0 result) +:+ slice1 result.

(** Empty, or beginning with an ASCII character *)
Definition ascii_first (s : string) : bool :=
  match s with
  | EmptyString => true
  | String c _ => Ascii.nat_of_ascii c <? 128
  end.




(** Reading a key back from its spaced text: a space in front of a
    capital letter is dropped. *)
Fixpoint unspace_capitals (s : string) : string :=
  match s with
  | EmptyString => EmptyString
  | String c rest =>
      match rest with
      | String c' rest' =>
          if Ascii.eqb c space && is_upper c'
          then String c' (unspace_capitals rest')
          else String c (unspace_capitals rest)
      | EmptyString => String c EmptyString
      end
  end.

Fixpoint count_capitals (text : string) : nat :=
  match text with
  | EmptyString => 0
  | String c rest => (if is_upper c then 1 else 0) + count_capitals rest
  end.
End Component.
End DynamicForm.

(** ** libs/callisto/src/lib/services/agentic-chat.ts and
       libs/callisto/src/lib/components/chat-panel/chat-panel.ts *)

Module ChatService.
Section Chat.
Context `{ZodLib}.

Local Open Scope eff_scope.

Inductive Role := user | assistant | system | tool.

(** [ChatMessage]; [content] is [None] where the code stores [undefined] *)
Record ChatMessage := {
  id : string;
  role : Role;
  content : option string;
  uiMessage : option JsValue;
}.

(** The two subjects of the service *)
Record ChatState := {
  messages : list ChatMessage;   (* messages$.getValue() *)
  isLoading : bool;              (* isLoading$.getValue() *)
}.

(** The last message of the agent's answer, as far as it is read *)
Record WireToolCall := {
  w_name : string;
  w_args : JsValue;
  w_id : string;
  w_type : option string;
}.

Record WireMessage := {
  w_content : option string;
  w_additional_kwargs_type : option string;   (* additional_kwargs?.type *)
  w_tool_calls : option (list WireToolCall);
}.

(** [{ messages, tool_definitions }], the body of the POST *)
Record ChatRequest := {
  rq_messages : list ChatMessage;
  rq_tool_definitions : list ToolRegistry.AgentToolDefinition;
}.

Inductive Event :=
  | ConsoleError (msg : string) (error : JsThrown)
  | Fetch (target : string) (request : ChatRequest)
  | HandleToolCall (name : string) (params : JsValue) (toolCallId : string)
  | Registry (e : ToolRegistry.Event).

(** How the POST settles: rejected, or a response with or without a body;
    a body is the chunks it yields, decoded, and how reading ends. *)
Record BodyStream := {
  chunks : list string;
  read_failure : option JsThrown;
}.

Inductive FetchResult :=
  | FetchRejected (error : JsThrown)
  | FetchResponse (body : option BodyStream).

(** [JSON.parse] of the answer down to [response.messages], [JSON.parse]
    of a message content, reading [.message] of the parsed value, and
    [JSON.stringify] of a tool result. *)
Variable JSON_parse_response : string -> JsThrown + list WireMessage.
Variable JSON_parse : string -> JsThrown + JsValue.
Variable get_message : JsValue -> JsThrown + option string.
Variable JSON_stringify_result : JsValue -> option string.

Definition AGENT_API_URL : string := "http://localhost:3333/api/chat".

Definition push (m : ChatMessage) (st : ChatState) : ChatState :=
  {| messages := messages st ++ [m]; isLoading := isLoading st |}.

Definition set_loading (b : bool) (st : ChatState) : ChatState :=
  {| messages := messages st; isLoading := b |}.

(** [lastMessage.tool_calls?.[0]?.type] *)
Definition first_call_type (lastMessage : WireMessage) : option string :=
  (w_tool_calls lastMessage ≫= head) ≫= w_type.

Definition with_events {E E' X A} (f : E -> E') (m : Eff E X A) : Eff E' X A :=
  (f <$> m.1, m.2).

(** [processAgentResponse(responseJson)]; [uuid] is what
    [crypto.randomUUID()] returns in this call. *)
Definition processAgentResponse (responseJson : string) (uuid : string)
    (st : ChatState) : Eff Event JsThrown ChatState :=
  try_catch
    (let* response_messages := await (JSON_parse_response responseJson) in
     let* lastMessage :=
       match last response_messages with
       | Some m => eff_ret m
       | None => throw (JsError "Cannot read properties of undefined")
       end in
     let* agentChatMessage :=
       if bool_decide (w_additional_kwargs_type lastMessage = Some "agentic_ui_render_html")
       then
         let* content0 :=
           match w_content lastMessage with
           | Some c => eff_ret c
           | None => throw (JsError "undefined is not valid JSON")
           end in
         let* ui := await (JSON_parse content0) in
         let* msg := await (get_message ui) in
         eff_ret {| id := uuid; role := assistant; content := msg; uiMessage := Some ui |}
       else if bool_decide (first_call_type lastMessage = Some "agentic_ui_tool_call")
       then
         match w_tool_calls lastMessage ≫= head with
         | Some toolCall =>
             let* _ := emit (HandleToolCall (w_name toolCall) (w_args toolCall)
                                            (w_id toolCall)) in
             eff_ret {| id := uuid; role := assistant;
                        content := Some ("Calling tool: " +:+ w_name toolCall);
                        uiMessage := None |}
         | None => throw (JsError "Cannot read properties of undefined")
         end
       else
         eff_ret {| id := uuid; role := assistant;
                    content := w_content lastMessage; uiMessage := None |} in
     eff_ret (push agentChatMessage st))
    (fun error =>
       let* _ := emit (ConsoleError "Error processing agent response:" error) in
       eff_ret st).

(** [sendMessage], up to the point where the POST is issued *)
Definition sendMessage_start (prompt : string)
    (toolDefinitions : list ToolRegistry.AgentToolDefinition) (uuid : string)
    (st : ChatState) : Eff Event JsThrown ChatState :=
  let st1 := set_loading true st in
  let userMessage := {| id := uuid; role := user; content := Some prompt;
                        uiMessage := None |} in
  let st2 := push userMessage st1 in
  let* _ := emit (Fetch AGENT_API_URL
                    {| rq_messages := messages st2;
                       rq_tool_definitions := toolDefinitions |}) in
  eff_ret st2.

(** [sendMessage] from there on, once the POST has settled; [uuid] is the
    next value of [crypto.randomUUID()]. [st] is the chat state at that
    moment: [sendMessage] below passes the state it left at the POST, a
    run during which nothing else updates the chat. *)
Definition sendMessage_settle (settled : FetchResult) (uuid : string)
    (st : ChatState) : Eff Event JsThrown ChatState :=
  let* st' :=
    try_catch
      (let* response_body :=
         match settled with
         | FetchRejected error => throw error
         | FetchResponse b => eff_ret b
         end in
       let* stream :=
         match response_body with
         | None => throw (JsError "Response body is empty.")
         | Some s => eff_ret s
         end in
       let* fullResponse :=
         match read_failure stream with
         | Some error => throw error
         | None => eff_ret (String.concat EmptyString (chunks stream))
         end in
       processAgentResponse fullResponse uuid st)
      (fun error =>
         let* _ := emit (ConsoleError "Failed to send message:" error) in
         eff_ret (push {| id := uuid; role := assistant;
                          content := Some "Sorry, I encountered an error. Please try again.";
                          uiMessage := None |} st)) in
  eff_ret (set_loading false st').

Definition sendMessage (prompt : string)
    (toolDefinitions : list ToolRegistry.AgentToolDefinition)
    (uuid1 uuid2 : string) (settled : FetchResult) (st : ChatState)
  : Eff Event JsThrown ChatState :=
  let* st1 := sendMessage_start prompt toolDefinitions uuid1 st in
  sendMessage_settle settled uuid2 st1.

(** [handleToolCall(name, params, toolCallId)] on the registry [tools];
    the [sendMessage] it calls is not awaited, so it is followed up to its
    POST. *)
Definition handleToolCall (tools : ToolRegistry.JsMap ToolRegistry.ToolDefinition)
    (name0 : string) (params : JsValue) (toolCallId : string) (uuid : string)
    (st : ChatState) : Eff Event JsThrown ChatState :=
  try_catch
    (let* result := with_events Registry (ToolRegistry.executeTool tools name0 params) in
     let toolMessage := {| id := toolCallId; role := tool;
                           content := JSON_stringify_result result;
                           uiMessage := None |} in
     sendMessage_start "Tool execution complete." [] uuid (push toolMessage st))
    (fun error =>
       let* _ := emit (ConsoleError ("Error executing tool " +:+ name0 +:+ ":") error) in
       eff_ret st).

Definition is_Fetch (e : Event) : bool :=
  match e with Fetch _ _ => true | _ => false end.

Definition is_HandleToolCall (e : Event) : bool :=
  match e with HandleToolCall _ _ _ => true | _ => false end.

(** What [processAgentResponse] does, case by case: either it only logs
    and leaves the state, or it appends [m], after announcing the tool
    call [called] if there is one. *)
Inductive Processed (uuid : string) (st : ChatState)
  : Eff Event JsThrown ChatState -> Prop :=
  | Processed_failed error :
      Processed uuid st ([ConsoleError "Error processing agent response:" error], inr st)
  | Processed_shown m :
      id m = uuid -> role m = assistant ->
      Processed uuid st ([], inr (push m st))
  | Processed_called m name0 params toolCallId :
      id m = uuid -> role m = assistant ->
      content m = Some ("Calling tool: " +:+ name0) ->
      Processed uuid st ([HandleToolCall name0 params toolCallId], inr (push m st)).

(** *** The chat panel *)

(** [String.prototype.trim] of the runtime *)
Variable trim : string -> string.

(** [ChatPanelComponent.sendMessage]: the input field and the chat state
    afterwards; nothing happens when the trimmed input is empty. *)
Definition panel_sendMessage (tools : ToolRegistry.JsMap ToolRegistry.ToolDefinition)
    (userInput : string) (uuid1 uuid2 : string) (settled : FetchResult)
    (st : ChatState) : Eff Event JsThrown (string * ChatState) :=
  if negb (truthy (Some (trim userInput))) then eff_ret (userInput, st)
  else
    let toolDefinitions := ToolRegistry.getToolDefinitionsForAgent tools [] in
    let* st' := sendMessage userInput toolDefinitions uuid1 uuid2 settled st in
    eff_ret (EmptyString, st').
End Chat.
End ChatService.

(** ** The demo application on the client side *)

Module DemoClient.


(** ASCII upper-casing, standing in for [String.prototype.toUpperCase] *)
Definition upper_ascii (c : Ascii.ascii) : Ascii.ascii :=
  let n := Ascii.nat_of_ascii c in
  if (97 <=? n) && (n <=? 122) then Ascii.ascii_of_nat (n - 32) else c.

Fixpoint demo_toUpperCase (s : string) : string :=
  match s with
  | EmptyString => EmptyString
  | String c r => String (upper_ascii c) (demo_toUpperCase r)
  end.

(** Removing blanks at both ends, standing in for [String.prototype.trim] *)
Fixpoint trim_left (s : string) : string :=
  match s with
  | String c r => if Ascii.eqb c DynamicForm.space then trim_left r else s
  | EmptyString => EmptyString
  end.

Definition demo_trim (s : string) : string :=
  String.rev (trim_left (String.rev (trim_left s))).

(** The last message of an answer, as the agent service's tool executor
    leaves it: one call, typed "tool_call". *)
Definition tool_call_answer : ChatService.WireMessage :=
  {| ChatService.w_content := Some EmptyString;
     ChatService.w_additional_kwargs_type := None;
     ChatService.w_tool_calls :=
       Some [ {| ChatService.w_name := "searchFlights";
                 ChatService.w_args := Demo.full_args;
                 ChatService.w_id := "call_1";
                 ChatService.w_type := Some "tool_call" |} ] |}.

Definition final_answer : ChatService.WireMessage :=
  {| ChatService.w_content := Some "Two flights found.";
     ChatService.w_additional_kwargs_type := None;
     ChatService.w_tool_calls := Some [] |}.

(** A reader that knows two answers and fails on anything else *)
Definition demo_parse_response (s : string) : JsThrown + list ChatService.WireMessage :=
  if decide (s = "tool_call") then inr [tool_call_answer]
  else if decide (s = "final") then inr [final_answer]
  else inl (JsError "Unexpected token").

Definition demo_parse (s : string) : JsThrown + Demo.Json := inr (Demo.JStr s).
Definition demo_get_message (v : Demo.Json) : JsThrown + option string :=
  match v with
  | Demo.JObj fields =>
      inr (match Demo.field "message" fields with Demo.JStr m => Some m | _ => None end)
  | Demo.JUndefined => inl (JsError "Cannot read properties of undefined (reading 'message')")
  | _ => inr None
  end.
Definition demo_stringify_result (v : Demo.Json) : option string :=
  match v with Demo.JUndefined => None | _ => Some "{...}" end.

Definition chat0 : ChatService.ChatState :=
  {| ChatService.messages := []; ChatService.isLoading := false |}.

(** The demo registry with a second tool that needs a permission *)
Definition mixed_tools : ToolRegistry.JsMap ToolRegistry.ToolDefinition :=
  ToolRegistry.register_all
    [ {| ToolRegistry.r_name := "searchFlights";
         ToolRegistry.r_toolFn := Demo.searchFlights;
         ToolRegistry.r_schema := Demo.flightSearchSchema;
         ToolRegistry.r_permissions := None |};
      {| ToolRegistry.r_name := "lookupFare";
         ToolRegistry.r_toolFn := Demo.lookupFare;
         ToolRegistry.r_schema := Demo.flightSearchSchema;
         ToolRegistry.r_permissions := Some ["agent"] |} ].

(** A registration whose schema was never given a description *)
Definition ping : ToolRegistry.Registration :=
  {| ToolRegistry.r_name := "ping";
     ToolRegistry.r_toolFn := Demo.searchFlights;
     ToolRegistry.r_schema := {| Demo.shape := []; Demo.described := None |};
     ToolRegistry.r_permissions := None |}.

(** The body the agent service posts for the demo tool, and a body with
    the same component, another schema and no tool name *)
Definition posted_body : RenderingService.RenderBody :=
  RenderingService.body_of_request (AgentService.renderRequest Demo.flightSearchTool).

Definition bare_body : RenderingService.RenderBody :=
  {| RenderingService.component := Some "agentic-dynamic-form";
     RenderingService.schema := Some (zodToJsonSchema {| Demo.shape := []; Demo.described := None |});
     RenderingService.toolName := None |}.

Definition engine_ok (_ : RenderingService.RenderOptions) : JsThrown + string :=
  inr "<agentic-dynamic-form></agentic-dynamic-form>".
End DemoClient.

(** * Properties of the agent service *)

Section AgentServiceFacts.
Import AgentService.
Context `{ZodLib}.
Variable toLowerCase : string -> string.
Variable JSON_stringify : ApiContract.RenderHtmlMessage -> string.
Variable axios_post : string -> RenderRequest -> JsThrown + AxiosResponse.

Abbreviation humanInTheLoop := (humanInTheLoopNode toLowerCase JSON_stringify axios_post).

Lemma first_tool_call_Some state toolCall :
  first_tool_call state = Some toolCall <->
  exists lastMessage rest,
    lastMessageOf state = Some (AI lastMessage) /\
    tool_calls lastMessage = Some (toolCall :: rest).
Proof.
  unfold first_tool_call. split.
  - destruct (lastMessageOf state) as [[m| | |]|]; try discriminate.
    destruct (tool_calls m) as [[|c rest]|] eqn:E; simpl; try discriminate.
    intros [= ->]. eauto.
  - intros (m & rest & -> & ->). reflexivity.
Qed.

Lemma shouldContinue_first state toolCall :
  first_tool_call state = Some toolCall ->
  shouldContinue state =
    match schema <$> (tool_definitions state !! tc_name toolCall) with
    | None => (END, state)
    | Some toolSchema =>
        if negb (success (safeParse toolSchema (tc_args toolCall))) then
          (human_in_the_loop,
           {| messages := messages state;
              tool_definitions := tool_definitions state;
              requires_user_input := true;
              pending_tool_name := Some (tc_name toolCall) |})
        else
          (tool_executor,
           {| messages := messages state;
              tool_definitions := tool_definitions state;
              requires_user_input := false;
              pending_tool_name := None |})
    end.
Proof.
  intros (m & rest & Hlast & Hcalls)%first_tool_call_Some.
  unfold shouldContinue. rewrite Hlast, Hcalls. reflexivity.
Qed.

(** C1. When the history ends in a model response whose first tool call
    names a tool of [tool_definitions] and its arguments fail the tool's
    schema, [shouldContinue] routes to [human_in_the_loop], sets
    [requires_user_input] to true and [pending_tool_name] to the name of
    that call; the history and the catalog stay as they were. *)
Theorem shouldContinue_invalid_args state lastMessage toolCall rest tool :
  lastMessageOf state = Some (AI lastMessage) ->
  tool_calls lastMessage = Some (toolCall :: rest) ->
  tool_definitions state !! tc_name toolCall = Some tool ->
  success (safeParse (schema tool) (tc_args toolCall)) = false ->
  let '(route, state') := shouldContinue state in
  route = human_in_the_loop /\
  requires_user_input state' = true /\
  pending_tool_name state' = Some (tc_name toolCall) /\
  messages state' = messages state /\
  tool_definitions state' = tool_definitions state.
Proof.
  intros Hlast Hcalls Htool Hfail.
  rewrite (shouldContinue_first state toolCall)
    by (apply first_tool_call_Some; eauto).
  rewrite Htool. simpl. rewrite Hfail. simpl. auto.
Qed.

(** C2. When the arguments of that first tool call pass the schema of
    the named tool, [shouldContinue] routes to [tool_executor], sets
    [requires_user_input] to false and clears [pending_tool_name]. *)
Theorem shouldContinue_valid_args state lastMessage toolCall rest tool :
  lastMessageOf state = Some (AI lastMessage) ->
  tool_calls lastMessage = Some (toolCall :: rest) ->
  tool_definitions state !! tc_name toolCall = Some tool ->
  success (safeParse (schema tool) (tc_args toolCall)) = true ->
  let '(route, state') := shouldContinue state in
  route = tool_executor /\
  requires_user_input state' = false /\
  pending_tool_name state' = None /\
  messages state' = messages state /\
  tool_definitions state' = tool_definitions state.
Proof.
  intros Hlast Hcalls Htool Hok.
  rewrite (shouldContinue_first state toolCall)
    by (apply first_tool_call_Some; eauto).
  rewrite Htool. simpl. rewrite Hok. simpl. auto.
Qed.

(** C3. When the first tool call names a tool that is not in
    [tool_definitions], [shouldContinue] routes to [END] and assigns to no
    field: a [requires_user_input] that was false is still false. *)
Theorem shouldContinue_unknown_tool state lastMessage toolCall rest :
  lastMessageOf state = Some (AI lastMessage) ->
  tool_calls lastMessage = Some (toolCall :: rest) ->
  tool_definitions state !! tc_name toolCall = None ->
  fst (shouldContinue state) = END /\
  snd (shouldContinue state) = state /\
  (requires_user_input state = false ->
   requires_user_input (snd (shouldContinue state)) = false).
Proof.
  intros Hlast Hcalls Hnone.
  rewrite (shouldContinue_first state toolCall)
    by (apply first_tool_call_Some; eauto).
  rewrite Hnone. simpl. auto.
Qed.

(** A session built from a posted history and catalog starts with the
    flag down and no pending tool, and the agent node only appends. *)
Lemma fresh_session_flags history catalog response :
  let state := apply_update (initial_state history catalog) (only_messages [response]) in
  requires_user_input state = false /\
  pending_tool_name state = None /\
  messages state = history ++ [response] /\
  lastMessageOf state = Some response.
Proof.
  unfold lastMessageOf, initial_state, apply_update, reduce_messages. cbn.
  split_and!; try done. apply last_snoc.
Qed.

(** With no message at all there is no last message to inspect. *)
Lemma shouldContinue_empty_history state :
  messages state = [] -> shouldContinue state = (END, state).
Proof. intros Hnil. unfold shouldContinue, lastMessageOf. by rewrite Hnil. Qed.

(** C4. When the last message is not a model response, or is a model
    response with no tool call, [shouldContinue] routes to [END] and the
    state after the call is the state before it. *)
Theorem shouldContinue_no_invocation state lastMessage :
  lastMessageOf state = Some lastMessage ->
  is_AIMessage lastMessage = false \/ invocations lastMessage = [] ->
  shouldContinue state = (END, state) /\
  requires_user_input (snd (shouldContinue state)) = requires_user_input state /\
  pending_tool_name (snd (shouldContinue state)) = pending_tool_name state /\
  messages (snd (shouldContinue state)) = messages state /\
  tool_definitions (snd (shouldContinue state)) = tool_definitions state.
Proof.
  intros Hlast Hcase.
  assert (shouldContinue state = (END, state)) as ->; [|by simpl].
  unfold shouldContinue. rewrite Hlast.
  destruct lastMessage as [a| | |]; try reflexivity.
  destruct Hcase as [Hno|Hempty]; [discriminate|].
  simpl in Hempty. destruct (tool_calls a) as [[|c cs]|]; try reflexivity.
  discriminate.
Qed.

(** The emitted directive repeats the fields of the call it is built from. *)
Lemma toolCallMessage_fields toolCall :
  ApiContract.tcm_type (toolCallMessage toolCall) = "tool_call" /\
  ApiContract.tcm_name (toolCallMessage toolCall) = tc_name toolCall /\
  ApiContract.tcm_params (toolCallMessage toolCall) = tc_args toolCall /\
  ApiContract.tcm_tool_call_id (toolCallMessage toolCall) = tc_id toolCall.
Proof. by unfold toolCallMessage. Qed.

(** C5. When the last message is a model response with at least one tool
    call, [toolExecutorNode] returns without any observable call and
    without throwing, and the one message it appends carries exactly one
    [tool_call] entry, with the name, the arguments and the id of the
    first call of the response; the calls after the first are not in it. *)
Theorem toolExecutorNode_first_call state lastMessage toolCall rest :
  lastMessageOf state = Some (AI lastMessage) ->
  tool_calls lastMessage = Some (toolCall :: rest) ->
  exists emitted directive,
    toolExecutorNode state = ([], inr (only_messages [AI emitted])) /\
    messages (apply_update state (only_messages [AI emitted]))
      = messages state ++ [AI emitted] /\
    tool_calls emitted = Some [directive] /\
    tc_type directive = Some "tool_call" /\
    tc_name directive = tc_name toolCall /\
    tc_args directive = tc_args toolCall /\
    tc_id directive = tc_id toolCall.
Proof.
  intros Hlast Hcalls. unfold toolExecutorNode. rewrite Hlast, Hcalls.
  eexists _, _. split; [reflexivity|]. simpl. by unfold reduce_messages.
Qed.

(** The ways [humanInTheLoopNode] can go. *)
Lemma humanInTheLoopNode_cases state :
  humanInTheLoop state =
    if negb (truthy (pending_tool_name state)) then
      ([], inl (JsError "Invalid state: pending_tool_name is not set."))
    else
      let pending := default EmptyString (pending_tool_name state) in
      match tool_definitions state !! pending with
      | None =>
          if bool_decide (pending ∈ Object_prototype_keys) then
            ([ConsoleError "Failed to render component via rendering service:"
                (JsError "Cannot read properties of undefined (reading '_def')")],
             inr (only_messages [AI errorMessage]))
          else ([], inl (JsError ("Tool " +:+ pending +:+ " not found.")))
      | Some tool =>
          match axios_post UI_RENDERING_SERVICE_URL (renderRequest tool) with
          | inl error =>
              ([AxiosPost UI_RENDERING_SERVICE_URL (renderRequest tool);
                ConsoleError "Failed to render component via rendering service:" error],
               inr (only_messages [AI errorMessage]))
          | inr response =>
              ([AxiosPost UI_RENDERING_SERVICE_URL (renderRequest tool)],
               inr (only_messages
                      [AI (customRenderMessage toLowerCase JSON_stringify tool
                             (data_html response))]))
          end
      end.
Proof.
  unfold humanInTheLoopNode, get_property.
  destruct (negb (truthy (pending_tool_name state))); [reflexivity|].
  cbv zeta. destruct (tool_definitions state !! _) as [tool|].
  - destruct (axios_post _ _) as [error|response]; reflexivity.
  - by destruct (bool_decide _).
Qed.

(** With a non-empty pending name that the catalog holds, a rejected POST
    gives the apology: the whole run, trace and outcome. *)
Lemma humanInTheLoopNode_rejected_post state pending tool error :
  pending_tool_name state = Some pending ->
  truthy (Some pending) = true ->
  tool_definitions state !! pending = Some tool ->
  axios_post UI_RENDERING_SERVICE_URL (renderRequest tool) = inl error ->
  humanInTheLoop state
  = ([AxiosPost UI_RENDERING_SERVICE_URL (renderRequest tool);
      ConsoleError "Failed to render component via rendering service:" error],
     inr (only_messages [AI errorMessage])).
Proof.
  intros Hpending Htruthy Htool Hfail.
  rewrite humanInTheLoopNode_cases, Hpending, Htruthy. simpl.
  by rewrite Htool, Hfail.
Qed.

(** C6. When the node has posted to the rendering service and that call
    is rejected, the node returns normally with the apology as a plain
    model message (no render marker), after exactly one POST. *)
Theorem humanInTheLoopNode_render_failure state pending tool body error :
  pending_tool_name state = Some pending ->
  tool_definitions state !! pending = Some tool ->
  AxiosPost UI_RENDERING_SERVICE_URL body ∈ trace (humanInTheLoop state) ->
  axios_post UI_RENDERING_SERVICE_URL body = inl error ->
  outcome (humanInTheLoop state) = inr (only_messages [AI errorMessage]) /\
  messages (apply_update state (only_messages [AI errorMessage]))
    = messages state ++ [AI errorMessage] /\
  content errorMessage = apology /\
  is_render_directive (AI errorMessage) = false /\
  filter (fun e => is_AxiosPost e = true) (trace (humanInTheLoop state))
    = [AxiosPost UI_RENDERING_SERVICE_URL body].
Proof.
  intros Hpending Htool Hposted Hfail. revert Hposted.
  rewrite humanInTheLoopNode_cases, Hpending.
  destruct (negb (truthy (Some pending))) eqn:Htruthy.
  { simpl. by intros ?%elem_of_nil. }
  simpl. rewrite Htool.
  destruct (axios_post _ (renderRequest tool)) as [error'|response] eqn:Hpost; simpl.
  - intros [Heq|Hin]%elem_of_cons.
    + injection Heq as ->. by unfold reduce_messages.
    + apply list_elem_of_singleton in Hin. discriminate.
  - intros Heq%list_elem_of_singleton. injection Heq as ->. congruence.
Qed.

Lemma renderMessage_contains_description tool componentHtml :
  exists text,
    ApiContract.rh_message (renderMessage toLowerCase tool componentHtml) = Some text /\
    is_substring (toLowerCase (description tool)) text.
Proof.
  eexists. split; [reflexivity|]. by eexists _, _.
Qed.

(** C7. Whenever [humanInTheLoopNode] returns a render directive for
    the pending tool [T], the directive it serialised has a [message] that
    contains the lower-cased description of [T] and a [toolName] that is
    the name of [T]. *)
Theorem humanInTheLoopNode_render_directive state pending T m :
  pending_tool_name state = Some pending ->
  tool_definitions state !! pending = Some T ->
  outcome (humanInTheLoop state) = inr (only_messages [m]) ->
  is_render_directive m = true ->
  exists directive text a,
    m = AI a /\
    content a = JSON_stringify directive /\
    ApiContract.rh_type directive = "render_html" /\
    ApiContract.rh_message directive = Some text /\
    is_substring (toLowerCase (description T)) text /\
    ApiContract.rh_toolName directive = name T.
Proof.
  intros Hpending Htool. rewrite humanInTheLoopNode_cases, Hpending.
  destruct (negb (truthy (Some pending))); [discriminate|].
  simpl. rewrite Htool.
  destruct (axios_post _ _) as [error|response]; simpl.
  - intros [= <-]. discriminate.
  - intros [= <-] _.
    destruct (renderMessage_contains_description T (data_html response))
      as (text & Htext & Hsub).
    by eexists _, text, _.
Qed.

(** What the two guards do stop, and what no run gets past: with
    [pending_tool_name] unset, or set to a name that is neither a key of
    [tool_definitions] nor a property every object inherits,
    [humanInTheLoopNode] throws an [Error] with nothing posted; and every
    render directive it returns was built for a tool that the catalog
    holds under the pending name. *)
Lemma humanInTheLoopNode_guards state :
  (pending_tool_name state = None \/
   (exists pending, pending_tool_name state = Some pending /\
                    tool_definitions state !! pending = None /\
                    pending ∉ Object_prototype_keys) ->
   exists message, humanInTheLoop state = ([], inl (JsError message))) /\
  (forall update ms m,
     outcome (humanInTheLoop state) = inr update ->
     p_messages update = Some ms -> m ∈ ms -> is_render_directive m = true ->
     exists pending tool componentHtml,
       pending_tool_name state = Some pending /\
       tool_definitions state !! pending = Some tool /\
       m = AI (customRenderMessage toLowerCase JSON_stringify tool componentHtml)).
Proof.
  rewrite humanInTheLoopNode_cases. split.
  - intros [Hnone|(pending & Hsome & Habsent & Hown)].
    + rewrite Hnone. simpl. eauto.
    + rewrite Hsome. destruct pending as [|c r]; simpl; [eauto|].
      rewrite Habsent, bool_decide_eq_false_2 by done. eauto.
  - intros update ms m.
    destruct (pending_tool_name state) as [pending|]; [|discriminate].
    destruct (negb (truthy (Some pending))) eqn:Htruthy; [discriminate|].
    simpl. destruct (tool_definitions state !! pending) as [tool|] eqn:Htool.
    + destruct (axios_post _ _) as [error|response]; simpl.
      * intros [= <-] [= <-] ->%list_elem_of_singleton. discriminate.
      * intros [= <-] [= <-] ->%list_elem_of_singleton _.
        by eexists pending, tool, _.
    + destruct (bool_decide _); [|discriminate]. simpl.
      intros [= <-] [= <-] ->%list_elem_of_singleton. discriminate.
Qed.

(** A pending name that the catalog lacks and every object inherits gets
    past the [!tool] guard: the node logs the failed schema conversion and
    returns the apology, without posting and without throwing. *)
Lemma humanInTheLoopNode_inherited state pending :
  pending_tool_name state = Some pending ->
  tool_definitions state !! pending = None ->
  pending ∈ Object_prototype_keys ->
  humanInTheLoop state
  = ([ConsoleError "Failed to render component via rendering service:"
        (JsError "Cannot read properties of undefined (reading '_def')")],
     inr (only_messages [AI errorMessage])).
Proof.
  intros Hpending Habsent Hproto. rewrite humanInTheLoopNode_cases, Hpending.
  assert (truthy (Some pending) = true) as ->.
  { destruct pending; [|done]. vm_compute in Hproto.
    by repeat (apply elem_of_cons in Hproto as [?|Hproto]; [done|]);
       apply elem_of_nil in Hproto. }
  simpl. by rewrite Habsent, bool_decide_eq_true_2.
Qed.

(** The edge never sees inherited properties as tools: what the catalog
    does not hold has no schema, whatever its name. *)
Lemma shouldContinue_reads_own_keys state name0 :
  schema <$> (tool_definitions state !! name0)
  = match get_property (tool_definitions state) name0 with
    | OwnValue tool => Some (schema tool)
    | _ => None
    end.
Proof.
  unfold get_property. destruct (tool_definitions state !! name0); [done|].
  by destruct (bool_decide _).
Qed.
End AgentServiceFacts.

(** * Properties of the client tool registry *)

Section ToolRegistryFacts.
Import ToolRegistry.
Context `{ZodLib}.

Lemma map_set_keys {V} (k : string) (v : V) (m : JsMap V) :
  (map_set k v m).*1 = if decide (k ∈ m.*1) then m.*1 else m.*1 ++ [k].
Proof.
  induction m as [|[k' v'] m IH]; csimpl.
  - by destruct (decide (k ∈ [])) as [Hin%elem_of_nil|].
  - destruct (decide (k' = k)) as [->|Hne]; csimpl.
    + destruct (decide (k ∈ k :: m.*1)) as [|Hnin]; [done|].
      exfalso. apply Hnin. by left.
    + rewrite IH.
      destruct (decide (k ∈ m.*1)) as [Hin|Hnin];
        destruct (decide (k ∈ k' :: m.*1)) as [Hin'|Hnin']; try done.
      * exfalso. apply Hnin'. by right.
      * apply elem_of_cons in Hin' as [?|?]; congruence.
Qed.

Lemma map_set_entries {V} (P : string * V -> Prop) k v (m : JsMap V) :
  P (k, v) -> Forall P m -> Forall P (map_set k v m).
Proof.
  intros Hkv. induction 1 as [|[k' v'] m Hhd Htl IH]; simpl.
  - by constructor.
  - destruct (decide (k' = k)); by constructor.
Qed.

Lemma registerTool_well_keyed name0 toolFn0 schema0 permissions0 tools :
  well_keyed tools ->
  well_keyed (snd (registerTool name0 toolFn0 schema0 permissions0 tools)).
Proof.
  intros [Hnodup Hnames]. split; simpl.
  - rewrite map_set_keys. destruct (decide (name0 ∈ tools.*1)); [done|].
    apply NoDup_app. split_and!; [done| |apply NoDup_singleton].
    intros k Hin ->%list_elem_of_singleton. done.
  - by apply map_set_entries.
Qed.

Lemma register_all_well_keyed rs : well_keyed (register_all rs).
Proof.
  unfold register_all.
  assert (well_keyed []) as Hnil.
  { split; [apply NoDup_nil_2|apply Forall_nil_2]. }
  revert Hnil. generalize (@nil (string * ToolDefinition)).
  induction rs as [|r rs IH]; intros tools Hwf; simpl; [done|].
  apply IH. by apply registerTool_well_keyed.
Qed.

(** Two registered tools with the same name are the same tool. *)
Lemma well_keyed_name_inj tools t1 t2 :
  well_keyed tools ->
  t1 ∈ map_values tools -> t2 ∈ map_values tools ->
  name t1 = name t2 -> t1 = t2.
Proof.
  unfold map_values. intros [Hnodup Hnames] Hin1 Hin2 Hname.
  apply list_elem_of_fmap in Hin1 as ([k1 v1] & -> & Hin1).
  apply list_elem_of_fmap in Hin2 as ([k2 v2] & -> & Hin2).
  simpl in *.
  pose proof (proj1 (Forall_forall _ _) Hnames _ Hin1) as Hk1.
  pose proof (proj1 (Forall_forall _ _) Hnames _ Hin2) as Hk2.
  simpl in *. assert (k1 = k2) as -> by congruence.
  clear Hk1 Hk2 Hname Hnames.
  induction tools as [|[k v] tools IH]; [by apply elem_of_nil in Hin1|].
  apply NoDup_cons in Hnodup as [Hfresh Hnodup].
  apply elem_of_cons in Hin1 as [Heq1|Hin1];
    apply elem_of_cons in Hin2 as [Heq2|Hin2].
  - congruence.
  - exfalso. apply Hfresh. injection Heq1 as <- _.
    by apply (list_elem_of_fmap_2 fst _ (k2, v2)).
  - exfalso. apply Hfresh. injection Heq2 as <- _.
    by apply (list_elem_of_fmap_2 fst _ (k2, v1)).
  - by apply IH.
Qed.

Lemma authorize_loop_filter perms values acc :
  authorize_loop perms values acc
  = acc ++ (project <$> filter (fun t => isAuthorized perms t = true) values).
Proof.
  revert acc. induction values as [|tool rest IH]; intros acc; simpl.
  - by rewrite app_nil_r.
  - rewrite filter_cons. destruct (isAuthorized perms tool) eqn:Hauth.
    + rewrite decide_True by done. rewrite IH, <-app_assoc. done.
    + rewrite decide_False by done. apply IH.
Qed.

Lemma isAuthorized_iff perms tool :
  isAuthorized perms tool = true <->
  permissions tool = [] \/ exists p, p ∈ permissions tool /\ p ∈ perms.
Proof.
  unfold isAuthorized, includes. rewrite orb_true_iff, existsb_exists.
  split.
  - intros [Hlen|(p & Hin & Hp)].
    + left. apply Nat.eqb_eq in Hlen. by destruct (permissions tool).
    + right. exists p. split; [by apply list_elem_of_In|].
      by apply bool_decide_eq_true in Hp.
  - intros [->|(p & Hin & Hp)]; [by left|].
    right. exists p. split; [by apply list_elem_of_In|].
    by apply bool_decide_eq_true.
Qed.

(** C9. For the registry built by any sequence of [registerTool] calls
    and any list of caller permissions, [getToolDefinitionsForAgent]
    returns, in registration order, the projections of the authorized
    tools: a registered tool is in the result exactly when its permission
    list is empty or shares a permission with the caller, and each entry
    is the name, description and schema of a registered tool. *)
Theorem getToolDefinitionsForAgent_projection
    (rs : list Registration) (currentUserPermissions : list string) :
  let tools := register_all rs in
  let result := getToolDefinitionsForAgent tools currentUserPermissions in
  result = (project <$> filter (fun t => isAuthorized currentUserPermissions t = true)
                               (map_values tools)) /\
  (forall tool, tool ∈ map_values tools ->
     (project tool ∈ result <->
      permissions tool = [] \/
      exists p, p ∈ permissions tool /\ p ∈ currentUserPermissions)) /\
  (forall entry, entry ∈ result ->
     exists tool, tool ∈ map_values tools /\
       a_name entry = name tool /\
       a_description entry = description tool /\
       a_schema entry = schema tool).
Proof.
  intros tools result.
  assert (result = (project <$> filter (fun t => isAuthorized currentUserPermissions t = true)
                                       (map_values tools))) as Hresult.
  { unfold result, getToolDefinitionsForAgent. by rewrite authorize_loop_filter. }
  split; [done|]. rewrite Hresult. split.
  - intros tool Hin. rewrite <-isAuthorized_iff. split.
    + intros (tool' & Hproj & [Hauth Hin']%list_elem_of_filter)%list_elem_of_fmap.
      assert (tool = tool') as ->; [|done].
      apply (well_keyed_name_inj tools); [apply register_all_well_keyed|done..|].
      by injection Hproj.
    + intros Hauth. apply list_elem_of_fmap_2. by apply list_elem_of_filter.
  - intros entry (tool & -> & [_ Hin]%list_elem_of_filter)%list_elem_of_fmap.
    by exists tool.
Qed.

(** All outcomes of [executeTool]. It throws the not-found error
    when nothing is registered under the name; throws the
    invalid-parameters error, with the function never called, when the
    parameters fail the tool's schema; otherwise it calls the function
    once with the parameters and returns its result, rethrows its failure
    when that is not a [ZodError], and reports a [ZodError] of the
    function as invalid parameters. *)
Theorem executeTool_outcomes (tools : JsMap ToolDefinition) (name0 : string)
    (params : JsValue) :
  let run := executeTool tools name0 params in
  match map_get name0 tools with
  | None => run = ([], inl (not_found name0))
  | Some tool =>
      match safeParse (schema tool) params with
      | inl e =>
          outcome run = inl (invalid_parameters name0 e) /\
          filter (fun ev => is_ToolFnCall ev = true) (trace run) = []
      | inr _ =>
          filter (fun ev => is_ToolFnCall ev = true) (trace run)
            = [ToolFnCall (name tool) params] /\
          match toolFn tool params with
          | inr result => outcome run = inr result
          | inl (JsZodError e) => outcome run = inl (invalid_parameters name0 e)
          | inl failure => outcome run = inl failure
          end
      end
  end.
Proof.
  intros run. unfold run, executeTool, parse.
  destruct (map_get name0 tools) as [tool|]; [|reflexivity].
  destruct (safeParse (schema tool) params) as [e|data]; [done|].
  destruct (toolFn tool params) as [[message|e|v]|result]; done.
Qed.
End ToolRegistryFacts.

(** * The demo application, run through the theorems *)

Lemma shouldContinue_invalid_args_witness :
  let '(route, state') := AgentService.shouldContinue (Demo.asked Demo.partial_args) in
  route = AgentService.human_in_the_loop /\
  AgentService.requires_user_input state' = true /\
  AgentService.pending_tool_name state' = Some "searchFlights" /\
  AgentService.messages state' = AgentService.messages (Demo.asked Demo.partial_args) /\
  AgentService.tool_definitions state' = Demo.demo_catalog.
Proof.
  exact (shouldContinue_invalid_args (Demo.asked Demo.partial_args) _ _ _ _
           eq_refl eq_refl eq_refl eq_refl).
Defined.

Lemma shouldContinue_valid_args_witness :
  let '(route, state') := AgentService.shouldContinue (Demo.asked Demo.full_args) in
  route = AgentService.tool_executor /\
  AgentService.requires_user_input state' = false /\
  AgentService.pending_tool_name state' = None /\
  AgentService.messages state' = AgentService.messages (Demo.asked Demo.full_args) /\
  AgentService.tool_definitions state' = Demo.demo_catalog.
Proof.
  exact (shouldContinue_valid_args (Demo.asked Demo.full_args) _ _ _ _
           eq_refl eq_refl eq_refl eq_refl).
Defined.

Lemma shouldContinue_unknown_tool_witness :
  fst (AgentService.shouldContinue Demo.hallucinated) = AgentService.END /\
  snd (AgentService.shouldContinue Demo.hallucinated) = Demo.hallucinated /\
  (AgentService.requires_user_input Demo.hallucinated = false ->
   AgentService.requires_user_input (snd (AgentService.shouldContinue Demo.hallucinated)) = false).
Proof.
  exact (shouldContinue_unknown_tool Demo.hallucinated _ _ _ eq_refl eq_refl eq_refl).
Defined.

Lemma shouldContinue_no_invocation_witness :
  AgentService.shouldContinue Demo.answered = (AgentService.END, Demo.answered) /\
  AgentService.requires_user_input (snd (AgentService.shouldContinue Demo.answered))
    = AgentService.requires_user_input Demo.answered /\
  AgentService.pending_tool_name (snd (AgentService.shouldContinue Demo.answered))
    = AgentService.pending_tool_name Demo.answered /\
  AgentService.messages (snd (AgentService.shouldContinue Demo.answered))
    = AgentService.messages Demo.answered /\
  AgentService.tool_definitions (snd (AgentService.shouldContinue Demo.answered))
    = AgentService.tool_definitions Demo.answered.
Proof.
  exact (shouldContinue_no_invocation Demo.answered _ eq_refl (or_intror eq_refl)).
Defined.

Lemma toolExecutorNode_first_call_witness :
  exists emitted directive,
    AgentService.toolExecutorNode (Demo.asked Demo.full_args)
      = ([], inr (AgentService.only_messages [AgentService.AI emitted])) /\
    AgentService.messages
      (AgentService.apply_update (Demo.asked Demo.full_args)
         (AgentService.only_messages [AgentService.AI emitted]))
      = AgentService.messages (Demo.asked Demo.full_args) ++ [AgentService.AI emitted] /\
    AgentService.tool_calls emitted = Some [directive] /\
    AgentService.tc_type directive = Some "tool_call" /\
    AgentService.tc_name directive = "searchFlights" /\
    AgentService.tc_args directive = Demo.full_args /\
    AgentService.tc_id directive = Some "call_1".
Proof.
  exact (toolExecutorNode_first_call (Demo.asked Demo.full_args) _ _ _ eq_refl eq_refl).
Defined.

Lemma humanInTheLoopNode_render_failure_witness :
  let run := AgentService.humanInTheLoopNode
               Demo.demo_toLowerCase Demo.demo_stringify Demo.post_fails Demo.paused in
  outcome run
    = inr (AgentService.only_messages [AgentService.AI AgentService.errorMessage]) /\
  AgentService.messages
    (AgentService.apply_update Demo.paused
       (AgentService.only_messages [AgentService.AI AgentService.errorMessage]))
    = AgentService.messages Demo.paused ++ [AgentService.AI AgentService.errorMessage] /\
  AgentService.content AgentService.errorMessage = AgentService.apology /\
  AgentService.is_render_directive (AgentService.AI AgentService.errorMessage) = false /\
  filter (fun e => AgentService.is_AxiosPost e = true) (trace run)
    = [AgentService.AxiosPost AgentService.UI_RENDERING_SERVICE_URL
         (AgentService.renderRequest Demo.flightSearchTool)].
Proof.
  refine (humanInTheLoopNode_render_failure
            Demo.demo_toLowerCase Demo.demo_stringify Demo.post_fails
            Demo.paused "searchFlights" _ _ (JsError "connect ECONNREFUSED")
            eq_refl eq_refl _ eq_refl).
  vm_compute. apply list_elem_of_here.
Defined.

Lemma humanInTheLoopNode_render_directive_witness :
  exists directive text a,
    AgentService.AI
      (AgentService.customRenderMessage Demo.demo_toLowerCase Demo.demo_stringify
         Demo.flightSearchTool "<agentic-dynamic-form></agentic-dynamic-form>")
      = AgentService.AI a /\
    AgentService.content a = Demo.demo_stringify directive /\
    ApiContract.rh_type directive = "render_html" /\
    ApiContract.rh_message directive = Some text /\
    is_substring (Demo.demo_toLowerCase "Search for available flights") text /\
    ApiContract.rh_toolName directive = "searchFlights".
Proof.
  exact (humanInTheLoopNode_render_directive
           Demo.demo_toLowerCase Demo.demo_stringify Demo.post_ok
           Demo.paused "searchFlights" _ _ eq_refl eq_refl eq_refl eq_refl).
Defined.

Example render_message_of_the_demo :
  ApiContract.rh_message
    (AgentService.renderMessage Demo.demo_toLowerCase Demo.flightSearchTool EmptyString)
  = Some "I need some more information to search for available flights.".
Proof. reflexivity. Qed.

(** C8. The first two parts hold ([executeTool_outcomes]); the last one
    fails on a registered function that rejects with a [ZodError] of its
    own. On ["lookupFare"] the parameters pass the declared schema, the
    function is called and fails, and the caller gets the
    invalid-parameters error in place of that failure. *)
Lemma executeTool_function_ZodError_not_propagated :
  exists tool,
    ToolRegistry.map_get "lookupFare" Demo.fare_tools = Some tool /\
    success (safeParse (ToolRegistry.schema tool) Demo.full_args) = true /\
    ToolRegistry.toolFn tool Demo.full_args = inl (JsZodError Demo.fareIssues) /\
    outcome (ToolRegistry.executeTool Demo.fare_tools "lookupFare" Demo.full_args)
      = inl (JsError "Invalid parameters for tool lookupFare: price: Required; ") /\
    outcome (ToolRegistry.executeTool Demo.fare_tools "lookupFare" Demo.full_args)
      <> inl (JsZodError Demo.fareIssues).
Proof.
  eexists. split; [reflexivity|]. split; [reflexivity|]. split; [reflexivity|].
  split; [reflexivity|]. discriminate.
Qed.

(** The demo registry, end to end *)
Example executeTool_searchFlights :
  outcome (ToolRegistry.executeTool Demo.demo_tools "searchFlights" Demo.full_args)
    = Demo.searchFlights Demo.full_args
  /\ outcome (ToolRegistry.executeTool Demo.demo_tools "searchFlight" Demo.full_args)
    = inl (ToolRegistry.not_found "searchFlight")
  /\ exists e,
       outcome (ToolRegistry.executeTool Demo.demo_tools "searchFlights" Demo.partial_args)
         = inl (ToolRegistry.invalid_parameters "searchFlights" e).
Proof. split; [reflexivity|]. split; [reflexivity|]. eexists. reflexivity. Qed.

(** C10. The claim fails on a pending name that the catalog lacks and
    every object inherits. With "toString" pending and only
    "searchFlights" in the catalog, [humanInTheLoopNode] does not throw:
    the [!tool] guard finds the inherited function, the schema conversion
    fails inside the [try], and the node returns the apology, with nothing
    posted. *)
Lemma humanInTheLoopNode_inherited_name_returns :
  AgentService.pending_tool_name Demo.stray = Some "toString" /\
  AgentService.tool_definitions Demo.stray !! "toString" = None /\
  AgentService.humanInTheLoopNode
    Demo.demo_toLowerCase Demo.demo_stringify Demo.post_ok Demo.stray
  = ([AgentService.ConsoleError "Failed to render component via rendering service:"
        (JsError "Cannot read properties of undefined (reading '_def')")],
     inr (AgentService.only_messages [AgentService.AI AgentService.errorMessage])).
Proof. split; [reflexivity|]. split; reflexivity. Qed.

(** An empty tool name counts as no pending tool: the node throws before
    it looks the name up, whatever the catalog holds. *)
Lemma humanInTheLoopNode_empty_name :
  AgentService.tool_definitions Demo.nameless !! EmptyString <> None /\
  AgentService.humanInTheLoopNode
    Demo.demo_toLowerCase Demo.demo_stringify Demo.post_fails Demo.nameless
  = ([], inl (JsError "Invalid state: pending_tool_name is not set.")).
Proof. split; [discriminate|reflexivity]. Qed.

Lemma getToolDefinitionsForAgent_projection_witness :
  ToolRegistry.getToolDefinitionsForAgent Demo.demo_tools []
    = [ {| ToolRegistry.a_name := "searchFlights";
           ToolRegistry.a_description := "Search for available flights";
           ToolRegistry.a_schema := Demo.flightSearchSchema |} ] /\
  ToolRegistry.getToolDefinitionsForAgent Demo.fare_tools [] = [] /\
  ToolRegistry.a_name <$> ToolRegistry.getToolDefinitionsForAgent Demo.fare_tools ["agent"]
    = ["lookupFare"].
Proof.
  pose proof (getToolDefinitionsForAgent_projection
                [ {| ToolRegistry.r_name := "searchFlights";
                     ToolRegistry.r_toolFn := Demo.searchFlights;
                     ToolRegistry.r_schema := Demo.flightSearchSchema;
                     ToolRegistry.r_permissions := None |} ] []) as [Hdemo _].
  pose proof (getToolDefinitionsForAgent_projection
                [ {| ToolRegistry.r_name := "lookupFare";
                     ToolRegistry.r_toolFn := Demo.lookupFare;
                     ToolRegistry.r_schema := Demo.flightSearchSchema;
                     ToolRegistry.r_permissions := Some ["agent"] |} ] []) as [Hnone _].
  pose proof (getToolDefinitionsForAgent_projection
                [ {| ToolRegistry.r_name := "lookupFare";
                     ToolRegistry.r_toolFn := Demo.lookupFare;
                     ToolRegistry.r_schema := Demo.flightSearchSchema;
                     ToolRegistry.r_permissions := Some ["agent"] |} ] ["agent"]) as [Hagent _].
  split; [exact Hdemo|]. split; [exact Hnone|].
  exact (f_equal (fmap ToolRegistry.a_name) Hagent).
Defined.


(** * More properties of the client tool registry *)

Section RegistryMoreFacts.
Import ToolRegistry RegistryViews.
Context `{ZodLib}.

Lemma map_get_set {V} (k k' : string) (v : V) (m : JsMap V) :
  map_get k (map_set k' v m) = if decide (k' = k) then Some v else map_get k m.
Proof.
  induction m as [|[k0 v0] m IH]; simpl.
  - done.
  - destruct (decide (k0 = k')) as [->|Hne]; simpl.
    + by destruct (decide (k' = k)).
    + rewrite IH. destruct (decide (k0 = k)) as [->|]; [|done].
      by rewrite decide_False by done.
Qed.

Lemma map_get_is_Some {V} (k : string) (m : JsMap V) :
  is_Some (map_get k m) <-> k ∈ m.*1.
Proof.
  induction m as [|[k0 v0] m IH]; csimpl.
  - split; [by intros [? ?]|by intros ?%elem_of_nil].
  - destruct (decide (k0 = k)) as [->|Hne].
    + split; [intros _; by left|by eauto].
    + rewrite IH, elem_of_cons. split; [by right|].
      by intros [?|?]; [congruence|].
Qed.

Lemma map_has_true {V} (k : string) (m : JsMap V) :
  map_has k m = true <-> k ∈ m.*1.
Proof. unfold map_has. by rewrite bool_decide_eq_true, map_get_is_Some. Qed.

Lemma map_set_length {V} (k : string) (v : V) (m : JsMap V) :
  length (map_set k v m) = if decide (k ∈ m.*1) then length m else S (length m).
Proof.
  induction m as [|[k0 v0] m IH]; csimpl.
  - by destruct (decide (k ∈ [])) as [Hin%elem_of_nil|].
  - destruct (decide (k0 = k)) as [->|Hne]; csimpl.
    + destruct (decide (k ∈ k :: m.*1)) as [|Hnin]; [done|].
      exfalso. apply Hnin. by left.
    + rewrite IH.
      destruct (decide (k ∈ m.*1)) as [Hin|Hnin];
        destruct (decide (k ∈ k0 :: m.*1)) as [Hin'|Hnin']; try done.
      * exfalso. apply Hnin'. by right.
      * apply elem_of_cons in Hin' as [?|?]; congruence.
Qed.

Lemma registerTool_stored name0 toolFn0 schema0 permissions0 tools :
  snd (registerTool name0 toolFn0 schema0 permissions0 tools)
  = map_set name0
      (stored {| r_name := name0; r_toolFn := toolFn0; r_schema := schema0;
                 r_permissions := permissions0 |}) tools.
Proof. reflexivity. Qed.

(** X1. After [registerTool(name, ...)] a lookup of [name] finds the entry
    just stored, with the permission list defaulting to the empty one, and
    a lookup of any other key finds what it found before. *)
Theorem registerTool_then_get name0 toolFn0 schema0 permissions0 tools k :
  map_get k (snd (registerTool name0 toolFn0 schema0 permissions0 tools))
  = if decide (name0 = k)
    then Some {| name := name0;
                 description := or_default (schema_description schema0)
                                           "No description provided.";
                 schema := schema0; toolFn := toolFn0;
                 permissions := default [] permissions0 |}
    else map_get k tools.
Proof. rewrite registerTool_stored. apply map_get_set. Qed.

(** X2. Registering a name that is taken prints the overwrite warning and
    replaces the entry where it stands, so the iteration order and the
    number of tools stay; a new name is added at the end without a warning. *)
Theorem registerTool_order name0 toolFn0 schema0 permissions0 tools :
  let '(printed, tools') := registerTool name0 toolFn0 schema0 permissions0 tools in
  (name0 ∈ tools.*1 ->
     tools'.*1 = tools.*1 /\ length tools' = length tools /\
     exists msg, printed = [ConsoleWarn msg]) /\
  (name0 ∉ tools.*1 -> tools'.*1 = tools.*1 ++ [name0] /\ printed = []).
Proof.
  unfold registerTool. split.
  - intros Hin. rewrite map_set_keys, decide_True by done.
    assert (map_has name0 tools = true) as -> by by apply map_has_true.
    rewrite map_set_length, decide_True by done. eauto.
  - intros Hnin. rewrite map_set_keys, decide_False by done. split; [done|].
    destruct (map_has name0 tools) eqn:Hhas; [|done].
    by apply map_has_true in Hhas.
Qed.

Lemma register_all_from_get rs tools n :
  map_get n
    (fold_left
       (fun tools r =>
          snd (registerTool (r_name r) (r_toolFn r) (r_schema r) (r_permissions r) tools))
       rs tools)
  = match last (registrations_of n rs) with
    | Some r => Some (stored r)
    | None => map_get n tools
    end.
Proof.
  revert tools. induction rs as [|r rs IH]; intros tools; [done|].
  cbn [fold_left]. rewrite IH. unfold registrations_of. rewrite filter_cons.
  rewrite registerTool_stored, map_get_set.
  destruct (decide (r_name r = n)) as [Hn|Hn].
  - rewrite last_cons.
    destruct (last (filter (fun r0 => r_name r0 = n) rs)); [done|].
    by destruct r.
  - done.
Qed.

(** X3. In a registry built by a sequence of [registerTool] calls, a name
    resolves to what the last call under that name stored, and to nothing
    when no call used the name. *)
Theorem register_all_last_wins (rs : list Registration) (n : string) :
  map_get n (register_all rs) = stored <$> last (registrations_of n rs).
Proof.
  unfold register_all. rewrite register_all_from_get.
  by destruct (last (registrations_of n rs)).
Qed.

Lemma or_default_nonempty a b : b <> EmptyString -> or_default a b <> EmptyString.
Proof.
  unfold or_default. intros Hb. destruct a as [[|c s]|]; simpl; done.
Qed.

(** X4. No registered tool has an empty description: a schema without a
    description, or with the empty one, is stored with the text
    "No description provided.". *)
Theorem registered_description_nonempty (rs : list Registration) :
  Forall (fun tool => description tool <> EmptyString) (map_values (register_all rs)) /\
  (forall r, schema_description (r_schema r) = None \/
             schema_description (r_schema r) = Some EmptyString ->
             description (stored r) = "No description provided.").
Proof.
  split.
  - unfold map_values, register_all. apply Forall_fmap.
    assert (Forall (fun kv : string * ToolDefinition => description kv.2 <> EmptyString) [])
      as Hnil by constructor.
    revert Hnil. generalize (@nil (string * ToolDefinition)).
    induction rs as [|r rs IH]; intros tools Htools; cbn [fold_left]; [done|].
    apply IH. rewrite registerTool_stored. apply map_set_entries; [|done].
    simpl. by apply or_default_nonempty.
  - intros r [Hd|Hd]; unfold stored, or_default; simpl; by rewrite Hd.
Qed.

Lemma filter_sublist_impl {A} (P Q : A -> Prop)
    `{forall x, Decision (P x)} `{forall x, Decision (Q x)} (l : list A) :
  (forall x, P x -> Q x) -> sublist (filter P l) (filter Q l).
Proof.
  intros HPQ. induction l as [|x l IH]; [constructor|].
  rewrite !filter_cons. destruct (decide (P x)) as [HP|HP].
  - rewrite decide_True by auto. by constructor.
  - destruct (decide (Q x)); [by constructor|done].
Qed.

(** X5. A caller with more permissions is offered at least the same
    tools, in the same order: the projection for [perms] is a sublist of
    the projection for any [perms'] that contains [perms]. *)
Theorem getToolDefinitionsForAgent_monotone (tools : JsMap ToolDefinition)
    (perms perms' : list string) :
  perms ⊆ perms' ->
  sublist (getToolDefinitionsForAgent tools perms) (getToolDefinitionsForAgent tools perms').
Proof.
  intros Hsub. unfold getToolDefinitionsForAgent.
  rewrite !authorize_loop_filter. simpl. apply fmap_sublist.
  apply filter_sublist_impl. intros tool.
  rewrite !isAuthorized_iff. intros [Hpub|(p & Hp & Hin)]; [by left|].
  right. exists p. split; [done|]. by apply Hsub.
Qed.

Lemma well_keyed_names tools :
  well_keyed tools -> NoDup (name <$> map_values tools).
Proof.
  unfold map_values. intros [Hnodup Hnames].
  assert (name <$> tools.*2 = tools.*1) as ->; [|done].
  clear Hnodup. induction Hnames as [|[k v] m Hk _ IH]; [done|].
  csimpl in *. by rewrite Hk, IH.
Qed.

(** X6. The names the agent is given are pairwise different: no name
    occurs twice in the projection of a registry built by [registerTool]. *)
Theorem getToolDefinitionsForAgent_names_NoDup (rs : list Registration)
    (currentUserPermissions : list string) :
  NoDup (a_name <$> getToolDefinitionsForAgent (register_all rs) currentUserPermissions).
Proof.
  unfold getToolDefinitionsForAgent. rewrite authorize_loop_filter. simpl.
  rewrite <-list_fmap_compose.
  apply (sublist_NoDup _ (name <$> map_values (register_all rs))).
  - apply well_keyed_names, register_all_well_keyed.
  - apply (fmap_sublist name). apply sublist_filter.
Qed.

Lemma map_get_with_permissions f tools k :
  map_get k (with_permissions f tools)
  = (fun tool => {| name := name tool; description := description tool;
                    schema := schema tool; toolFn := toolFn tool;
                    permissions := f tool |}) <$> map_get k tools.
Proof.
  induction tools as [|[k0 v0] m IH]; [done|].
  csimpl. destruct (decide (k0 = k)); [done|]. apply IH.
Qed.

(** X7. [executeTool] does not look at permissions: the same call on the
    same registry with any other permission lists runs the same way, so a
    tool that the projection hides from a caller still executes by name. *)
Theorem executeTool_ignores_permissions (f : ToolDefinition -> list string)
    (tools : JsMap ToolDefinition) (name0 : string) (params : JsValue) :
  executeTool (with_permissions f tools) name0 params = executeTool tools name0 params.
Proof.
  unfold executeTool. rewrite map_get_with_permissions.
  by destruct (map_get name0 tools).
Qed.

(** X8. When [executeTool] resolves with a value, a tool is registered
    under the name, the parameters passed its schema, the function was
    called with those parameters and the value is what it resolved with. *)
Theorem executeTool_resolves (tools : JsMap ToolDefinition) (name0 : string)
    (params result : JsValue) :
  outcome (executeTool tools name0 params) = inr result ->
  exists tool,
    map_get name0 tools = Some tool /\
    success (safeParse (schema tool) params) = true /\
    toolFn tool params = inr result /\
    ToolFnCall (name tool) params ∈ trace (executeTool tools name0 params).
Proof.
  pose proof (executeTool_outcomes tools name0 params) as Hall. simpl in Hall.
  destruct (map_get name0 tools) as [tool|]; [|by rewrite Hall].
  destruct (safeParse (schema tool) params) as [e|data] eqn:Hparse.
  { destruct Hall as [-> _]. discriminate. }
  destruct Hall as [Hcalls Hout]. intros Hres. exists tool.
  split_and!; [done|by rewrite Hparse| |].
  - destruct (toolFn tool params) as [[m|e|v]|r]; congruence.
  - assert (ToolFnCall (name tool) params
            ∈ filter (fun ev => is_ToolFnCall ev = true)
                (trace (executeTool tools name0 params))) as Hin
      by (rewrite Hcalls; apply list_elem_of_here).
    by apply list_elem_of_filter in Hin as [_ ?].
Qed.

(** X9. [executeTool] never rejects with a [ZodError]; whatever it throws
    is the not-found error, the invalid-parameters error, or a failure of
    the tool function that the function itself produced. *)
Theorem executeTool_rejections (tools : JsMap ToolDefinition) (name0 : string)
    (params : JsValue) (thrown : JsThrown) :
  outcome (executeTool tools name0 params) = inl thrown ->
  (forall e, thrown <> JsZodError e) /\
  (thrown = not_found name0 \/
   (exists e, thrown = invalid_parameters name0 e) \/
   (exists tool, map_get name0 tools = Some tool /\ toolFn tool params = inl thrown)).
Proof.
  pose proof (executeTool_outcomes tools name0 params) as Hall. simpl in Hall.
  destruct (map_get name0 tools) as [tool|].
  2:{ rewrite Hall. intros [= <-]. split; [done|by left]. }
  destruct (safeParse (schema tool) params) as [e|data].
  { destruct Hall as [-> _]. intros [= <-]. split; [done|]. right; left. by eexists. }
  destruct Hall as [_ Hout].
  destruct (toolFn tool params) as [[m|e|v]|r] eqn:Hfn; rewrite Hout; intros [= <-].
  - split; [done|]. right; right. by exists tool.
  - split; [done|]. right; left. by eexists.
  - split; [done|]. right; right. by exists tool.
Qed.
End RegistryMoreFacts.

(** * More properties of the agent service *)

Section AgentServiceMoreFacts.
Import AgentService.
Context `{ZodLib}.
Variable toLowerCase : string -> string.
Variable JSON_stringify : ApiContract.RenderHtmlMessage -> string.
Variable axios_post : string -> RenderRequest -> JsThrown + AxiosResponse.

Abbreviation humanInTheLoop' := (humanInTheLoopNode toLowerCase JSON_stringify axios_post).

Lemma shouldContinue_no_first state :
  first_tool_call state = None -> shouldContinue state = (END, state).
Proof.
  unfold first_tool_call, shouldContinue.
  destruct (lastMessageOf state) as [[m| | |]|]; try done.
  by destruct (tool_calls m) as [[|c rest]|].
Qed.

(** X10. [shouldContinue] ends the run exactly when there is no first tool
    call to look at (no message, a last message that is not a model
    response, no tool calls) or when that call names a tool the catalog
    does not hold. *)
Theorem shouldContinue_END_iff state :
  fst (shouldContinue state) = END <->
  match first_tool_call state with
  | None => True
  | Some toolCall => tool_definitions state !! tc_name toolCall = None
  end.
Proof.
  destruct (first_tool_call state) as [c|] eqn:Hfirst.
  - rewrite (shouldContinue_first state c Hfirst).
    destruct (tool_definitions state !! tc_name c) as [tool|]; simpl; [|done].
    by destruct (success _).
  - by rewrite shouldContinue_no_first.
Qed.

Lemma shouldContinue_routes state route state' :
  shouldContinue state = (route, state') -> route <> END ->
  exists toolCall tool,
    first_tool_call state = Some toolCall /\
    tool_definitions state !! tc_name toolCall = Some tool /\
    ((route = tool_executor /\
      success (safeParse (schema tool) (tc_args toolCall)) = true /\
      state' = {| messages := messages state;
                  tool_definitions := tool_definitions state;
                  requires_user_input := false;
                  pending_tool_name := None |}) \/
     (route = human_in_the_loop /\
      success (safeParse (schema tool) (tc_args toolCall)) = false /\
      state' = {| messages := messages state;
                  tool_definitions := tool_definitions state;
                  requires_user_input := true;
                  pending_tool_name := Some (tc_name toolCall) |})).
Proof.
  destruct (first_tool_call state) as [c|] eqn:Hfirst.
  2:{ rewrite shouldContinue_no_first by done. by intros [= <- <-]. }
  rewrite (shouldContinue_first state c Hfirst).
  destruct (tool_definitions state !! tc_name c) as [tool|] eqn:Htool; simpl.
  2:{ by intros [= <- <-]. }
  destruct (success _) eqn:Hok; simpl; intros [= <- <-] _; exists c, tool;
    split_and!; try done; [by left|by right].
Qed.

(** X11. Through the graph the form node runs on the channel values,
    which the assignments of the edge do not reach. So for a state whose
    [pending_tool_name] is unset or empty, as the channel is in every fresh
    session, a route to [human_in_the_loop] ends in the thrown error
    "pending_tool_name is not set", with nothing posted, although the edge
    has just named a catalog tool as pending on its own copy. *)
Theorem human_in_the_loop_through_graph state :
  fst (shouldContinue state) = human_in_the_loop ->
  truthy (pending_tool_name state) = false ->
  route_and_run toLowerCase JSON_stringify axios_post state
    = ([], inl (JsError "Invalid state: pending_tool_name is not set.")) /\
  exists toolCall tool,
    pending_tool_name (snd (shouldContinue state)) = Some (tc_name toolCall) /\
    tool_definitions state !! tc_name toolCall = Some tool.
Proof.
  intros Hroute Hunset. split.
  - unfold route_and_run. rewrite Hroute, humanInTheLoopNode_cases, Hunset. done.
  - destruct (shouldContinue state) as [route state'] eqn:Hsc. simpl in Hroute. subst route.
    destruct (shouldContinue_routes _ _ _ Hsc)
      as (c & tool & _ & Htool & [(? & _)|(_ & _ & ->)]); [done|done|].
    by exists c, tool.
Qed.

(** X12. When [shouldContinue] routes to [tool_executor],
    [toolExecutorNode] on the state it leaves returns normally, and the
    call it emits names a catalog tool whose schema its arguments pass. *)
Theorem tool_executor_after_route state state' :
  shouldContinue state = (tool_executor, state') ->
  exists emitted directive tool,
    toolExecutorNode state' = ([], inr (only_messages [AI emitted])) /\
    tool_calls emitted = Some [directive] /\
    tool_definitions state' !! tc_name directive = Some tool /\
    success (safeParse (schema tool) (tc_args directive)) = true.
Proof.
  intros Hroute.
  destruct (shouldContinue_routes _ _ _ Hroute)
    as (c & tool & Hfirst & Htool & [(_ & Hok & ->)|(? & _)]); [done| |done].
  apply first_tool_call_Some in Hfirst as (m & rest & Hlast & Hcalls).
  unfold toolExecutorNode, lastMessageOf in *. simpl. rewrite Hlast, Hcalls.
  eexists _, _, tool. split; [reflexivity|]. simpl. split_and!; done.
Qed.

(** X13. [toolExecutorNode] returns normally exactly when the last message
    is a model response with a first tool call; otherwise it throws, and
    in neither case does it make an observable call. *)
Theorem toolExecutorNode_returns_iff state :
  ((exists update, outcome (toolExecutorNode state) = inr update)
     <-> is_Some (first_tool_call state)) /\
  trace (toolExecutorNode state) = [].
Proof.
  unfold toolExecutorNode, first_tool_call.
  destruct (lastMessageOf state) as [[m| | |]|]; simpl;
    try (split; [|done]; split; [by intros [? ?]|by intros [? ?]]).
  destruct (tool_calls m) as [[|c rest]|]; simpl;
    try (split; [|done]; split; [by intros [? ?]|by intros [? ?]]).
  split; [|done]. split; eauto.
Qed.

(** X14. Whatever either node returns is an update of the history alone,
    by one model message: reducing it into the state appends that message
    and leaves the catalog, the flag and the pending name as they were. *)
Theorem nodes_append_one_message state update :
  outcome (toolExecutorNode state) = inr update \/
  outcome (humanInTheLoop' state) = inr update ->
  exists a,
    update = only_messages [AI a] /\
    apply_update state update
    = {| messages := messages state ++ [AI a];
         tool_definitions := tool_definitions state;
         requires_user_input := requires_user_input state;
         pending_tool_name := pending_tool_name state |}.
Proof.
  intros [Hexec|Hhuman].
  - unfold toolExecutorNode in Hexec.
    destruct (lastMessageOf state) as [[m| | |]|]; try discriminate.
    destruct (tool_calls m) as [[|c rest]|]; try discriminate.
    injection Hexec as <-. by eexists.
  - rewrite humanInTheLoopNode_cases in Hhuman.
    destruct (negb _); [discriminate|]. simpl in Hhuman.
    destruct (tool_definitions state !! _) as [tool|].
    + destruct (axios_post _ _); injection Hhuman as <-; by eexists.
    + destruct (bool_decide _); [|discriminate].
      injection Hhuman as <-. by eexists.
Qed.

(** X15. [humanInTheLoopNode] posts at most once, and what it posts goes
    to the rendering URL, asks for the dynamic-form component and carries
    the JSON schema and the name of the pending catalog tool. *)
Theorem humanInTheLoopNode_posts state :
  length (filter (fun e => is_AxiosPost e = true) (trace (humanInTheLoop' state))) <= 1 /\
  (forall target body,
     AxiosPost target body ∈ trace (humanInTheLoop' state) ->
     target = UI_RENDERING_SERVICE_URL /\
     component body = "agentic-dynamic-form" /\
     exists pending tool,
       pending_tool_name state = Some pending /\
       tool_definitions state !! pending = Some tool /\
       rq_schema body = zodToJsonSchema (schema tool) /\
       rq_toolName body = name tool).
Proof.
  rewrite humanInTheLoopNode_cases.
  destruct (pending_tool_name state) as [[|a r]|] eqn:Hpending; simpl;
    try (split; [lia|by intros ? ? ?%elem_of_nil]).
  destruct (tool_definitions state !! String a r) as [tool|] eqn:Htool; simpl.
  2:{ destruct (bool_decide _); simpl.
      - split; [lia|]. intros target body Hin%list_elem_of_singleton. discriminate.
      - split; [lia|by intros ? ? ?%elem_of_nil]. }
  destruct (axios_post _ _); simpl.
  - split; [done|]. intros target body [Heq|Hin]%elem_of_cons.
    + injection Heq as -> ->. split_and!; try done. by exists (String a r), tool.
    + apply list_elem_of_singleton in Hin. discriminate.
  - split; [done|]. intros target body Heq%list_elem_of_singleton.
    injection Heq as -> ->. split_and!; try done. by exists (String a r), tool.
Qed.

(** X16. The routing decision reads the history and the catalog only:
    two states that agree on them are routed alike, whatever their flag
    and pending name, and routing the state that [shouldContinue] leaves
    gives the same route and leaves it as it is. *)
Theorem shouldContinue_reads_history_and_catalog state1 state2 :
  messages state1 = messages state2 ->
  tool_definitions state1 = tool_definitions state2 ->
  fst (shouldContinue state1) = fst (shouldContinue state2) /\
  shouldContinue (snd (shouldContinue state1))
  = (fst (shouldContinue state1), snd (shouldContinue state1)).
Proof.
  intros Hm Hd. unfold shouldContinue, lastMessageOf. rewrite <-Hm, <-Hd.
  destruct (last (messages state1)) as [[m| | |]|] eqn:Hlast; simpl;
    rewrite ?Hlast; try done.
  destruct (tool_calls m) as [[|c rest]|] eqn:Hcalls; simpl;
    rewrite ?Hlast, ?Hcalls; try done.
  destruct (tool_definitions state1 !! tc_name c) as [tool|] eqn:Htool; simpl;
    rewrite ?Hlast, ?Hcalls, ?Htool; try done.
  destruct (success _) eqn:Hok; simpl; rewrite Hlast, Hcalls, Htool; simpl;
    by rewrite Hok.
Qed.
End AgentServiceMoreFacts.

(** * Properties of the rendering service *)

Section RenderingServiceFacts.
Import RenderingService.
Context `{ZodLib}.
Variable commonEngine_render : RenderOptions -> JsThrown + string.
Variable toLowerCase : string -> string.
Variable JSON_stringify : ApiContract.RenderHtmlMessage -> string.

Abbreviation handler := (render_handler commonEngine_render).

Lemma render_handler_cases originalUrl req_body :
  handler originalUrl req_body =
    match component req_body, schema req_body with
    | Some (String a r), Some _ =>
        let options :=
          {| document := "<" +:+ String a r +:+ "></" +:+ String a r +:+ ">";
             url := originalUrl |} in
        match commonEngine_render options with
        | inr html => ([EngineRender options], inr (send (HtmlBody html)))
        | inl err =>
            ([EngineRender options; ConsoleError "Error rendering component:" err],
             inr {| status := 500; body := ErrorBody "Failed to render component." |})
        end
    | _, _ =>
        ([], inr {| status := 400;
                    body := ErrorBody "Component selector and schema are required." |})
    end.
Proof.
  unfold render_handler.
  destruct (component req_body) as [[|a r]|]; simpl; try done.
  destruct (schema req_body) as [sc|]; simpl; [|done].
  by destruct (commonEngine_render _).
Qed.

(** X17. The render handler throws, sending nothing and without asking
    the engine, when [req.body] is undefined. On a parsed body it always
    answers: 400 exactly when the component selector is missing or empty
    or the schema is missing, and then the engine is not asked; in every
    other case the engine is asked once, and the answer is 200 with the
    HTML the engine produced or 500 when the engine failed. *)
Theorem post_render_answers originalUrl :
  (exists thrown, post_render commonEngine_render originalUrl None = ([], inl thrown)) /\
  (forall req_body,
     let run := post_render commonEngine_render originalUrl (Some req_body) in
     exists response,
       outcome run = inr response /\
       (status response = 400 <->
          truthy (component req_body) = false \/ schema req_body = None) /\
       (status response = 400 -> trace run = []) /\
       (status response <> 400 ->
          exists options,
            filter (fun e => is_EngineRender e = true) (trace run)
              = [EngineRender options] /\
            match commonEngine_render options with
            | inr html => status response = 200 /\ body response = HtmlBody html
            | inl _ => status response = 500 /\
                       body response = ErrorBody "Failed to render component."
            end)).
Proof.
  split; [by eexists|].
  intros req_body run. unfold run, post_render. rewrite render_handler_cases.
  destruct (component req_body) as [[|a r]|]; simpl;
    try (eexists; split; [reflexivity|]; simpl; split_and!; try done;
         split; [by left|done]).
  destruct (schema req_body) as [sc|]; simpl.
  2:{ eexists; split; [reflexivity|]; simpl; split_and!; try done.
      split; [by right|done]. }
  destruct (commonEngine_render _) as [err|html] eqn:Hengine; simpl.
  - eexists; split; [reflexivity|]; simpl. split_and!; try done.
    + split; [done|]. by intros [?|?].
    + intros _. eexists. split; [reflexivity|]. by rewrite Hengine.
  - eexists; split; [reflexivity|]; simpl. split_and!; try done.
    + split; [done|]. by intros [?|?].
    + intros _. eexists. split; [reflexivity|]. by rewrite Hengine.
Qed.

(** X18. The answer does not depend on what the schema holds nor on the
    tool name: two requests to the same URL with the same component
    selector, each with some schema, are answered alike. *)
Theorem render_handler_ignores_schema originalUrl body1 body2 :
  component body1 = component body2 ->
  is_Some (schema body1) -> is_Some (schema body2) ->
  render_handler commonEngine_render originalUrl body1
  = render_handler commonEngine_render originalUrl body2.
Proof.
  intros Hc [s1 Hs1] [s2 Hs2]. rewrite !render_handler_cases.
  by rewrite Hc, Hs1, Hs2.
Qed.

End RenderingServiceFacts.

(** * Properties of the form builder and the dynamic form *)

Section FormFacts.
Import FormBuilder DynamicForm.
Context `{ZodForms}.
Variable toUpperCase : string -> string.




Lemma is_upper_space : is_upper space = false.
Proof. reflexivity. Qed.

Lemma space_capitals_head_not_upper text c rest :
  space_capitals text = String c rest -> is_upper c = true ->
  False.
Proof.
  destruct text as [|c0 r0]; [done|]. simpl.
  destruct (is_upper c0) eqn:Hc0; intros [= <- <-]; [by rewrite is_upper_space|].
  congruence.
Qed.

Lemma space_capitals_empty text : space_capitals text = EmptyString -> text = EmptyString.
Proof. destruct text as [|c r]; [done|]. simpl. by destruct (is_upper c). Qed.

Lemma space_capitals_unspace text : unspace_capitals (space_capitals text) = text.
Proof.
  induction text as [|c rest IH]; [done|]. simpl.
  destruct (is_upper c) eqn:Hc.
  - cbn [unspace_capitals]. rewrite Ascii.eqb_refl, Hc. simpl. by rewrite IH.
  - cbn [unspace_capitals].
    destruct (space_capitals rest) as [|c' rest'] eqn:Hrest.
    + by rewrite (space_capitals_empty rest Hrest).
    + destruct (is_upper c') eqn:Hc'.
      { exfalso. by apply (space_capitals_head_not_upper rest c' rest'). }
      rewrite andb_false_r. by rewrite IH.
Qed.

Lemma space_capitals_inj text text' :
  space_capitals text' = space_capitals text -> text' = text.
Proof.
  intros Heq. by rewrite <-(space_capitals_unspace text'), Heq, space_capitals_unspace.
Qed.

(** X22. Spacing the capitals loses nothing: dropping the space in front
    of each capital gives the key back, so two different keys never get
    the same spaced text; and the spaced text is longer than the key by
    the number of ASCII capitals in it. *)
Theorem space_capitals_round_trip (text : string) :
  unspace_capitals (space_capitals text) = text /\
  String.length (space_capitals text) = String.length text + count_capitals text /\
  (forall text', space_capitals text' = space_capitals text -> text' = text).
Proof.
  split_and!.
  - apply space_capitals_unspace.
  - induction text as [|c rest IH]; [done|]. simpl.
    destruct (is_upper c); simpl; rewrite IH; lia.
  - intros text'. apply space_capitals_inj.
Qed.

Lemma space_capitals_ascii_first key :
  ascii_first key = true ->
  space_capitals key = EmptyString \/
  exists c rest, space_capitals key = String c rest /\
                 Ascii.nat_of_ascii c < 128 /\ is_upper c = false.
Proof.
  destruct key as [|c r]; [by left|]. simpl. intros Hc%Nat.ltb_lt. right.
  destruct (is_upper c) eqn:Hu.
  - exists space, (String c (space_capitals r)). split; [done|]. split; [|done].
    vm_compute. lia.
  - by exists c, (space_capitals r).
Qed.

Lemma label_of_ascii_first c rest :
  Ascii.nat_of_ascii c < 128 ->
  first_unit_width (String c rest) = 1 /\
  charAt0 (String c rest) = String c EmptyString /\
  slice1 (String c rest) = rest.
Proof.
  intros Hc%Nat.ltb_lt. unfold charAt0, slice1, first_unit_width. cbv zeta.
  by rewrite Hc.
Qed.

(** X23. Upper-casing keeps the empty string empty, turns an ASCII
    character into one character and tells apart ASCII characters that
    are not capitals. With that, among keys that are empty or begin with
    an ASCII character, two different keys never get the same label. A
    key that begins with an ASCII capital has the upper-casing spent on
    the inserted space: its label is that space, upper-cased, followed by
    the key's own first letter. *)
Theorem camelCaseToTitleCase_inj :
  toUpperCase EmptyString = EmptyString ->
  (forall c, Ascii.nat_of_ascii c < 128 ->
     exists c', toUpperCase (String c EmptyString) = String c' EmptyString) ->
  (forall c1 c2, Ascii.nat_of_ascii c1 < 128 -> Ascii.nat_of_ascii c2 < 128 ->
     is_upper c1 = false -> is_upper c2 = false ->
     toUpperCase (String c1 EmptyString) = toUpperCase (String c2 EmptyString) -> c1 = c2) ->
  (forall key1 key2,
     ascii_first key1 = true -> ascii_first key2 = true ->
     camelCaseToTitleCase toUpperCase key1 = camelCaseToTitleCase toUpperCase key2 ->
     key1 = key2) /\
  (forall c rest, is_upper c = true ->
     camelCaseToTitleCase toUpperCase (String c rest)
     = toUpperCase (String space EmptyString) +:+ String c (space_capitals rest)).
Proof.
  intros Hempty Hone Hinj. split.
  - intros key1 key2 Ha1 Ha2. unfold camelCaseToTitleCase. cbv zeta. intros Heq.
    apply space_capitals_inj.
    destruct (space_capitals_ascii_first key1 Ha1) as [H1|(c1 & r1 & H1 & Hb1 & Hu1)];
      destruct (space_capitals_ascii_first key2 Ha2) as [H2|(c2 & r2 & H2 & Hb2 & Hu2)];
      rewrite H1, H2 in Heq |- *.
    + done.
    + destruct (label_of_ascii_first c2 r2 Hb2) as (Hw2 & Hh2 & Ht2).
      destruct (Hone c2 Hb2) as [c' Hc'].
      rewrite Hw2, Hh2, Ht2 in Heq. simpl in Heq.
      unfold charAt0 in Heq. simpl in Heq. rewrite Hempty, Hc' in Heq. discriminate.
    + destruct (label_of_ascii_first c1 r1 Hb1) as (Hw1 & Hh1 & Ht1).
      destruct (Hone c1 Hb1) as [c' Hc'].
      rewrite Hw1, Hh1, Ht1 in Heq. simpl in Heq.
      unfold charAt0 in Heq. simpl in Heq. rewrite Hempty, Hc' in Heq. discriminate.
    + destruct (label_of_ascii_first c1 r1 Hb1) as (Hw1 & Hh1 & Ht1).
      destruct (label_of_ascii_first c2 r2 Hb2) as (Hw2 & Hh2 & Ht2).
      destruct (Hone c1 Hb1) as [c1' Hc1]. destruct (Hone c2 Hb2) as [c2' Hc2].
      rewrite Hw1, Hh1, Ht1, Hw2, Hh2, Ht2 in Heq.
      simpl in Heq. rewrite Hc1, Hc2 in Heq.
      cbv [String.append] in Heq. injection Heq as Hc Hr.
      assert (c1 = c2) as ->; [|by rewrite Hr].
      apply Hinj; try done. by rewrite Hc1, Hc2, Hc.
  - intros c rest Hc. unfold camelCaseToTitleCase. simpl. rewrite Hc.
    destruct (label_of_ascii_first space (String c (space_capitals rest)))
      as (Hw & Hh & Ht); [vm_compute; lia|].
    by rewrite Hw, Hh, Ht.
Qed.
End FormFacts.

(** * Properties of the chat service and the chat panel *)

Section ChatFacts.
Import ChatService.
Context `{ZodLib}.
Variable JSON_parse_response : string -> JsThrown + list WireMessage.
Variable JSON_parse : string -> JsThrown + JsValue.
Variable get_message : JsValue -> JsThrown + option string.
Variable JSON_stringify_result : JsValue -> option string.
Variable trim : string -> string.

Abbreviation process := (processAgentResponse JSON_parse_response JSON_parse get_message).
Abbreviation settle := (sendMessage_settle JSON_parse_response JSON_parse get_message).
Abbreviation send := (sendMessage JSON_parse_response JSON_parse get_message).

Lemma processAgentResponse_Processed responseJson uuid st :
  Processed uuid st (process responseJson uuid st).
Proof.
  unfold processAgentResponse.
  destruct (JSON_parse_response responseJson) as [e|ms]; simpl; [constructor|].
  destruct (last ms) as [m|]; simpl; [|constructor].
  destruct (bool_decide (w_additional_kwargs_type m = _)); simpl.
  { destruct (w_content m) as [c|]; simpl; [|constructor].
    destruct (JSON_parse c) as [e|ui]; simpl; [constructor|].
    destruct (get_message ui) as [e|msg]; simpl; [constructor|].
    by apply Processed_shown. }
  destruct (bool_decide (first_call_type m = _)); simpl.
  { destruct (w_tool_calls m ≫= head) as [tc|]; simpl; [|constructor].
    by eapply Processed_called. }
  by apply Processed_shown.
Qed.

(** X24. [processAgentResponse] never throws: whatever the answer is, it
    returns, keeps the loading flag, and either leaves the history as it
    was or appends one assistant message with the id drawn for it. *)
Theorem processAgentResponse_total responseJson uuid st :
  exists st',
    outcome (process responseJson uuid st) = inr st' /\
    isLoading st' = isLoading st /\
    (messages st' = messages st \/
     exists m, messages st' = messages st ++ [m] /\ role m = assistant /\ id m = uuid).
Proof.
  destruct (processAgentResponse_Processed responseJson uuid st)
    as [e|m Hid Hrole|m n p i Hid Hrole Hc];
    eexists; (split; [reflexivity|]); simpl; split; try done;
    try (by left); right; by exists m.
Qed.

(** X25. A tool call in the answer is handed to [handleToolCall] only when
    its [type] is the text "agentic_ui_tool_call". The entry that the
    agent service's [toolExecutorNode] emits is typed "tool_call", so an
    answer whose first call carries that type starts no tool. *)
Theorem processAgentResponse_skips_tool_call responseJson uuid st
    (state : AgentService.AgentState) emitted directive others ms lastMessage :
  outcome (AgentService.toolExecutorNode state)
    = inr (AgentService.only_messages [AgentService.AI emitted]) ->
  AgentService.tool_calls emitted = Some (directive :: others) ->
  JSON_parse_response responseJson = inr ms ->
  last ms = Some lastMessage ->
  first_call_type lastMessage = AgentService.tc_type directive ->
  filter (fun e => is_HandleToolCall e = true) (trace (process responseJson uuid st)) = [].
Proof.
  intros Hnode Hcalls Hparse Hlast Htype.
  assert (AgentService.tc_type directive = Some "tool_call") as Hdir.
  { unfold AgentService.toolExecutorNode in Hnode.
    destruct (AgentService.lastMessageOf state) as [[m| | |]|]; try discriminate.
    destruct (AgentService.tool_calls m) as [[|c rest]|]; try discriminate.
    simpl in Hnode. injection Hnode as <-. simpl in Hcalls. by injection Hcalls as <- <-. }
  rewrite Hdir in Htype.
  unfold processAgentResponse. rewrite Hparse. simpl. rewrite Hlast. simpl.
  destruct (bool_decide (w_additional_kwargs_type lastMessage = _)); simpl.
  { destruct (w_content lastMessage) as [c|]; simpl; [|done].
    destruct (JSON_parse c) as [e|ui]; simpl; [done|].
    by destruct (get_message ui) as [e|msg]. }
  rewrite Htype. by rewrite bool_decide_eq_false_2.
Qed.

Lemma no_Fetch_in_registry_events (t : list ToolRegistry.Event) :
  filter (fun e => is_Fetch e = true) (Registry <$> t) = [].
Proof. induction t as [|ev t IH]; [done|]. csimpl. by rewrite filter_cons. Qed.

(** X26. When the tool fails (not registered, parameters refused, or the
    function itself failing), [handleToolCall] only logs: the chat state is
    as before, nothing is posted to the agent, and nothing is thrown. *)
Theorem handleToolCall_failure tools name0 params toolCallId uuid st thrown :
  outcome (ToolRegistry.executeTool tools name0 params) = inl thrown ->
  outcome (handleToolCall JSON_stringify_result tools name0 params toolCallId uuid st)
    = inr st /\
  filter (fun e => is_Fetch e = true)
    (trace (handleToolCall JSON_stringify_result tools name0 params toolCallId uuid st)) = [].
Proof.
  unfold handleToolCall, with_events, outcome.
  destruct (ToolRegistry.executeTool tools name0 params) as [t [e|r]]; simpl;
    [|discriminate].
  intros _. split; [done|].
  by rewrite filter_app, no_Fetch_in_registry_events.
Qed.

(** X27. When the tool resolves, [handleToolCall] appends the tool message
    under the id of the call, holding the serialised result, then the user
    message "Tool execution complete.", raises the loading flag and posts
    that history to the agent with an empty list of tool definitions. *)
Theorem handleToolCall_success tools name0 params toolCallId uuid st result :
  outcome (ToolRegistry.executeTool tools name0 params) = inr result ->
  exists st',
    outcome (handleToolCall JSON_stringify_result tools name0 params toolCallId uuid st)
      = inr st' /\
    messages st'
      = messages st
        ++ [ {| id := toolCallId; role := tool;
                content := JSON_stringify_result result; uiMessage := None |};
             {| id := uuid; role := user;
                content := Some "Tool execution complete."; uiMessage := None |} ] /\
    isLoading st' = true /\
    filter (fun e => is_Fetch e = true)
      (trace (handleToolCall JSON_stringify_result tools name0 params toolCallId uuid st))
      = [Fetch AGENT_API_URL {| rq_messages := messages st'; rq_tool_definitions := [] |}].
Proof.
  unfold handleToolCall, with_events, outcome.
  destruct (ToolRegistry.executeTool tools name0 params) as [t [e|r]]; simpl;
    [discriminate|].
  intros [= ->]. eexists. split; [reflexivity|]. simpl.
  split; [by rewrite <-app_assoc|]. split; [done|].
  rewrite filter_app, no_Fetch_in_registry_events. simpl.
  by rewrite <-app_assoc.
Qed.

Lemma no_Fetch_in_Processed uuid st r :
  Processed uuid st r -> filter (fun e => is_Fetch e = true) (trace r) = [].
Proof. by intros [e|m ? ?|m n p i ? ? ?]. Qed.

(** One run of [sendMessage], whatever the POST settles to *)
Lemma sendMessage_run prompt toolDefinitions uuid1 uuid2 settled st :
  let userMessage := {| id := uuid1; role := user; content := Some prompt;
                        uiMessage := None |} in
  let run := send prompt toolDefinitions uuid1 uuid2 settled st in
  exists st',
    outcome run = inr st' /\
    isLoading st' = false /\
    filter (fun e => is_Fetch e = true) (trace run)
      = [Fetch AGENT_API_URL {| rq_messages := messages st ++ [userMessage];
                                rq_tool_definitions := toolDefinitions |}] /\
    (messages st' = messages st ++ [userMessage] \/
     exists m, messages st' = messages st ++ [userMessage; m] /\
               role m = assistant /\ id m = uuid2) /\
    (match settled with
     | FetchRejected _ | FetchResponse None => True
     | FetchResponse (Some stream) => is_Some (read_failure stream)
     end ->
     messages st'
     = messages st
       ++ [userMessage;
           {| id := uuid2; role := assistant;
              content := Some "Sorry, I encountered an error. Please try again.";
              uiMessage := None |}]).
Proof.
  intros userMessage run. unfold run, sendMessage, sendMessage_start, sendMessage_settle.
  simpl.
  destruct settled as [error|[stream|]]; simpl.
  - eexists. split; [reflexivity|]. simpl. split_and!; try done.
    + right. eexists. split; [by rewrite <-app_assoc|done].
    + intros _. by rewrite <-app_assoc.
  - destruct (read_failure stream) as [error|] eqn:Hread; simpl.
    + eexists. split; [reflexivity|]. simpl. split_and!; try done.
      * right. eexists. split; [by rewrite <-app_assoc|done].
      * intros _. by rewrite <-app_assoc.
    + match goal with
      | |- context [processAgentResponse ?a ?b ?c ?d ?e ?f] =>
          generalize (processAgentResponse_Processed d e f);
          generalize (processAgentResponse a b c d e f)
      end.
      intros r Hp.
      destruct Hp as [e|m Hid Hrole|m n p i Hid Hrole Hc]; simpl;
        (eexists; split; [reflexivity|]); simpl; split_and!; try done;
        try (by left); try (by intros [? ?]);
        right; exists m; by rewrite <-app_assoc.
  - eexists. split; [reflexivity|]. simpl. split_and!; try done.
    + right. eexists. split; [by rewrite <-app_assoc|done].
    + intros _. by rewrite <-app_assoc.
Qed.

(** X28. [sendMessage] never throws and posts exactly once, the history
    with the user's message at its end and the tool definitions it was
    given. When it is done the loading flag is down, and the history has
    grown by the user's message and at most one assistant message; when
    the POST is rejected, the response has no body or reading it fails,
    that message is the fixed apology. *)
Theorem sendMessage_total prompt toolDefinitions uuid1 uuid2 settled st :
  let userMessage := {| id := uuid1; role := user; content := Some prompt;
                        uiMessage := None |} in
  let run := send prompt toolDefinitions uuid1 uuid2 settled st in
  exists st',
    outcome run = inr st' /\
    isLoading st' = false /\
    filter (fun e => is_Fetch e = true) (trace run)
      = [Fetch AGENT_API_URL {| rq_messages := messages st ++ [userMessage];
                                rq_tool_definitions := toolDefinitions |}] /\
    (messages st' = messages st ++ [userMessage] \/
     exists m, messages st' = messages st ++ [userMessage; m] /\
               role m = assistant /\ id m = uuid2) /\
    (match settled with
     | FetchRejected _ | FetchResponse None => True
     | FetchResponse (Some stream) => is_Some (read_failure stream)
     end ->
     messages st'
     = messages st
       ++ [userMessage;
           {| id := uuid2; role := assistant;
              content := Some "Sorry, I encountered an error. Please try again.";
              uiMessage := None |}]).
Proof. apply sendMessage_run. Qed.

Lemma isAuthorized_nobody tool :
  ToolRegistry.isAuthorized [] tool = true <-> ToolRegistry.permissions tool = [].
Proof.
  rewrite isAuthorized_iff. split; [|by left].
  intros [?|(p & _ & Hin)]; [done|]. by apply elem_of_nil in Hin.
Qed.

(** X29. The chat panel sends nothing for an input that trims to the
    empty string: no request, same chat state, input kept. For any other
    input it posts once, clears the input, and the tool definitions in
    the request are those of the tools registered without permissions: a
    tool with any permission is never offered to the agent. *)
Theorem panel_sendMessage_public_tools tools userInput uuid1 uuid2 settled st :
  let run := panel_sendMessage JSON_parse_response JSON_parse get_message trim
               tools userInput uuid1 uuid2 settled st in
  (trim userInput = EmptyString -> run = ([], inr (userInput, st))) /\
  (trim userInput <> EmptyString ->
     exists st' request,
       outcome run = inr (EmptyString, st') /\
       filter (fun e => is_Fetch e = true) (trace run) = [Fetch AGENT_API_URL request] /\
       rq_tool_definitions request
       = (ToolRegistry.project
            <$> filter (fun t => ToolRegistry.permissions t = [])
                       (ToolRegistry.map_values tools))).
Proof.
  intros run. unfold run, panel_sendMessage. split.
  - by intros ->.
  - intros Hne. destruct (trim userInput) as [|c r] eqn:Htrim; [done|]. simpl.
    destruct (sendMessage_run userInput (ToolRegistry.getToolDefinitionsForAgent tools [])
                uuid1 uuid2 settled st) as (st' & Hout & _ & Hposts & _).
    unfold outcome, trace in *.
    destruct (send _ _ _ _ _ _) as [t [e|st'']]; simpl in *; [discriminate|].
    injection Hout as ->. eexists _, _. split; [done|].
    rewrite app_nil_r. split; [exact Hposts|]. simpl.
    unfold ToolRegistry.getToolDefinitionsForAgent.
    rewrite authorize_loop_filter. simpl. f_equal.
    apply list_filter_iff. intros tool. apply isAuthorized_nobody.
Qed.
End ChatFacts.

(** * The demo application, run through the further properties *)

Lemma registerTool_order_witness :
  let '(printed, tools') :=
    ToolRegistry.registerTool "searchFlights" Demo.searchFlights Demo.flightSearchSchema
      (Some ["agent"]) DemoClient.mixed_tools in
  tools'.*1 = ["searchFlights"; "lookupFare"] /\ length tools' = 2 /\
  exists msg, printed = [ToolRegistry.ConsoleWarn msg].
Proof.
  refine (proj1 (registerTool_order "searchFlights" Demo.searchFlights
                   Demo.flightSearchSchema (Some ["agent"]) DemoClient.mixed_tools) _).
  vm_compute. apply list_elem_of_here.
Defined.

Lemma registered_description_nonempty_witness :
  ToolRegistry.description (RegistryViews.stored DemoClient.ping)
  = "No description provided.".
Proof.
  exact (proj2 (registered_description_nonempty []) DemoClient.ping (or_introl eq_refl)).
Defined.

Lemma getToolDefinitionsForAgent_monotone_witness :
  sublist (ToolRegistry.getToolDefinitionsForAgent DemoClient.mixed_tools [])
          (ToolRegistry.getToolDefinitionsForAgent DemoClient.mixed_tools ["agent"]).
Proof.
  apply (getToolDefinitionsForAgent_monotone DemoClient.mixed_tools [] ["agent"]).
  apply list_subseteq_nil.
Defined.

Lemma executeTool_resolves_witness :
  exists tool,
    ToolRegistry.map_get "searchFlights" Demo.demo_tools = Some tool /\
    success (safeParse (ToolRegistry.schema tool) Demo.full_args) = true /\
    ToolRegistry.toolFn tool Demo.full_args = Demo.searchFlights Demo.full_args /\
    ToolRegistry.ToolFnCall (ToolRegistry.name tool) Demo.full_args
      ∈ trace (ToolRegistry.executeTool Demo.demo_tools "searchFlights" Demo.full_args).
Proof.
  exact (executeTool_resolves Demo.demo_tools "searchFlights" Demo.full_args _ eq_refl).
Defined.

Lemma executeTool_rejections_witness :
  (forall e, ToolRegistry.not_found "bookHotel" <> JsZodError e) /\
  (ToolRegistry.not_found "bookHotel" = ToolRegistry.not_found "bookHotel" \/
   (exists e, ToolRegistry.not_found "bookHotel"
              = ToolRegistry.invalid_parameters "bookHotel" e) \/
   (exists tool, ToolRegistry.map_get "bookHotel" Demo.demo_tools = Some tool /\
                 ToolRegistry.toolFn tool Demo.full_args
                 = inl (ToolRegistry.not_found "bookHotel"))).
Proof.
  exact (executeTool_rejections Demo.demo_tools "bookHotel" Demo.full_args _ eq_refl).
Defined.

Lemma human_in_the_loop_through_graph_witness :
  AgentService.route_and_run Demo.demo_toLowerCase Demo.demo_stringify Demo.post_ok
    (Demo.asked Demo.partial_args)
    = ([], inl (JsError "Invalid state: pending_tool_name is not set.")) /\
  exists toolCall tool,
    AgentService.pending_tool_name
      (snd (AgentService.shouldContinue (Demo.asked Demo.partial_args)))
      = Some (AgentService.tc_name toolCall) /\
    AgentService.tool_definitions (Demo.asked Demo.partial_args)
      !! AgentService.tc_name toolCall = Some tool.
Proof.
  exact (human_in_the_loop_through_graph Demo.demo_toLowerCase Demo.demo_stringify
           Demo.post_ok (Demo.asked Demo.partial_args) eq_refl eq_refl).
Defined.

Lemma tool_executor_after_route_witness :
  exists emitted directive tool,
    AgentService.toolExecutorNode (Demo.asked Demo.full_args)
      = ([], inr (AgentService.only_messages [AgentService.AI emitted])) /\
    AgentService.tool_calls emitted = Some [directive] /\
    AgentService.tool_definitions (Demo.asked Demo.full_args)
      !! AgentService.tc_name directive = Some tool /\
    success (safeParse (AgentService.schema tool) (AgentService.tc_args directive)) = true.
Proof.
  exact (tool_executor_after_route (Demo.asked Demo.full_args)
           (Demo.asked Demo.full_args) eq_refl).
Defined.

Lemma nodes_append_one_message_witness :
  exists a,
    AgentService.only_messages [AgentService.AI AgentService.errorMessage]
      = AgentService.only_messages [AgentService.AI a] /\
    AgentService.apply_update Demo.paused
      (AgentService.only_messages [AgentService.AI AgentService.errorMessage])
    = {| AgentService.messages := AgentService.messages Demo.paused ++ [AgentService.AI a];
         AgentService.tool_definitions := AgentService.tool_definitions Demo.paused;
         AgentService.requires_user_input := AgentService.requires_user_input Demo.paused;
         AgentService.pending_tool_name := AgentService.pending_tool_name Demo.paused |}.
Proof.
  exact (nodes_append_one_message Demo.demo_toLowerCase Demo.demo_stringify
           Demo.post_fails Demo.paused _ (or_intror eq_refl)).
Defined.

Lemma shouldContinue_reads_history_and_catalog_witness :
  fst (AgentService.shouldContinue (Demo.asked Demo.partial_args))
    = fst (AgentService.shouldContinue Demo.paused) /\
  AgentService.shouldContinue (snd (AgentService.shouldContinue (Demo.asked Demo.partial_args)))
  = (fst (AgentService.shouldContinue (Demo.asked Demo.partial_args)),
     snd (AgentService.shouldContinue (Demo.asked Demo.partial_args))).
Proof.
  exact (shouldContinue_reads_history_and_catalog
           (Demo.asked Demo.partial_args) Demo.paused eq_refl eq_refl).
Defined.

Lemma render_handler_ignores_schema_witness :
  RenderingService.render_handler DemoClient.engine_ok "/render" DemoClient.posted_body
  = RenderingService.render_handler DemoClient.engine_ok "/render" DemoClient.bare_body.
Proof.
  exact (render_handler_ignores_schema DemoClient.engine_ok "/render"
           DemoClient.posted_body DemoClient.bare_body
           eq_refl (mk_is_Some _ _ eq_refl) (mk_is_Some _ _ eq_refl)).
Defined.



Lemma space_capitals_round_trip_witness :
  DynamicForm.space_capitals "departureCity" = "departure City" /\
  DynamicForm.unspace_capitals "departure City" = "departureCity" /\
  String.length (DynamicForm.space_capitals "departureCity") = 14.
Proof.
  destruct (space_capitals_round_trip "departureCity") as (Hback & Hlen & _).
  split; [reflexivity|]. split; [exact Hback|exact Hlen].
Defined.

Lemma upper_ascii_one c :
  Ascii.nat_of_ascii c < 128 ->
  exists c', DemoClient.demo_toUpperCase (String c EmptyString) = String c' EmptyString.
Proof. intros _. by eexists. Qed.

Lemma upper_ascii_code c :
  Ascii.nat_of_ascii (DemoClient.upper_ascii c)
  = if (97 <=? Ascii.nat_of_ascii c) && (Ascii.nat_of_ascii c <=? 122)
    then Ascii.nat_of_ascii c - 32 else Ascii.nat_of_ascii c.
Proof.
  unfold DemoClient.upper_ascii. cbv zeta.
  pose proof (Ascii.nat_ascii_bounded c) as Hb.
  destruct ((97 <=? Ascii.nat_of_ascii c) && (Ascii.nat_of_ascii c <=? 122)); [|done].
  apply Ascii.nat_ascii_embedding. lia.
Qed.

Lemma upper_ascii_inj c1 c2 :
  Ascii.nat_of_ascii c1 < 128 -> Ascii.nat_of_ascii c2 < 128 ->
  DynamicForm.is_upper c1 = false -> DynamicForm.is_upper c2 = false ->
  DemoClient.demo_toUpperCase (String c1 EmptyString)
  = DemoClient.demo_toUpperCase (String c2 EmptyString) ->
  c1 = c2.
Proof.
  unfold DynamicForm.is_upper. cbn [DemoClient.demo_toUpperCase]. cbv zeta.
  intros _ _ Hu1 Hu2 Heq.
  assert (DemoClient.upper_ascii c1 = DemoClient.upper_ascii c2) as Hc by congruence.
  apply (f_equal Ascii.nat_of_ascii) in Hc. rewrite !upper_ascii_code in Hc.
  apply andb_false_iff in Hu1. apply andb_false_iff in Hu2.
  rewrite !Nat.leb_gt in Hu1, Hu2.
  assert (Ascii.nat_of_ascii c1 = Ascii.nat_of_ascii c2) as Hn.
  { destruct (Nat.leb_spec 97 (Ascii.nat_of_ascii c1));
      destruct (Nat.leb_spec (Ascii.nat_of_ascii c1) 122);
      destruct (Nat.leb_spec 97 (Ascii.nat_of_ascii c2));
      destruct (Nat.leb_spec (Ascii.nat_of_ascii c2) 122);
      cbn [andb] in Hc; lia. }
  by rewrite <-(Ascii.ascii_nat_embedding c1), <-(Ascii.ascii_nat_embedding c2), Hn.
Qed.

Lemma camelCaseToTitleCase_inj_witness :
  (forall key1 key2,
     DynamicForm.ascii_first key1 = true -> DynamicForm.ascii_first key2 = true ->
     DynamicForm.camelCaseToTitleCase DemoClient.demo_toUpperCase key1
     = DynamicForm.camelCaseToTitleCase DemoClient.demo_toUpperCase key2 ->
     key1 = key2) /\
  DynamicForm.camelCaseToTitleCase DemoClient.demo_toUpperCase "departureCity"
    = "Departure City" /\
  DynamicForm.camelCaseToTitleCase DemoClient.demo_toUpperCase "City" = " City".
Proof.
  destruct (camelCaseToTitleCase_inj DemoClient.demo_toUpperCase
              eq_refl upper_ascii_one upper_ascii_inj) as [Hinj Hcap].
  split; [exact Hinj|]. split; [reflexivity|].
  exact (Hcap (Ascii.ascii_of_nat 67) "ity" eq_refl).
Defined.

Lemma processAgentResponse_skips_tool_call_witness :
  filter (fun e => ChatService.is_HandleToolCall e = true)
    (trace (@ChatService.processAgentResponse Demo.MiniZod DemoClient.demo_parse_response
              DemoClient.demo_parse DemoClient.demo_get_message
              "tool_call" "uuid-2" DemoClient.chat0)) = [].
Proof.
  refine (@processAgentResponse_skips_tool_call Demo.MiniZod DemoClient.demo_parse_response
            DemoClient.demo_parse DemoClient.demo_get_message
            "tool_call" "uuid-2" DemoClient.chat0
            (Demo.asked Demo.full_args) _ _ [] [DemoClient.tool_call_answer]
            DemoClient.tool_call_answer eq_refl eq_refl eq_refl eq_refl eq_refl).
Defined.

Lemma handleToolCall_failure_witness :
  outcome (@ChatService.handleToolCall Demo.MiniZod DemoClient.demo_stringify_result Demo.demo_tools
             "searchFlights" Demo.partial_args "call_1" "uuid-3" DemoClient.chat0)
    = inr DemoClient.chat0 /\
  filter (fun e => ChatService.is_Fetch e = true)
    (trace (@ChatService.handleToolCall Demo.MiniZod DemoClient.demo_stringify_result Demo.demo_tools
              "searchFlights" Demo.partial_args "call_1" "uuid-3" DemoClient.chat0)) = [].
Proof.
  exact (@handleToolCall_failure Demo.MiniZod DemoClient.demo_stringify_result Demo.demo_tools
           "searchFlights" Demo.partial_args "call_1" "uuid-3" DemoClient.chat0 _ eq_refl).
Defined.

Lemma handleToolCall_success_witness :
  exists st',
    outcome (@ChatService.handleToolCall Demo.MiniZod DemoClient.demo_stringify_result Demo.demo_tools
               "searchFlights" Demo.full_args "call_1" "uuid-3" DemoClient.chat0)
      = inr st' /\
    ChatService.id <$> ChatService.messages st' = ["call_1"; "uuid-3"] /\
    ChatService.isLoading st' = true.
Proof.
  destruct (@handleToolCall_success Demo.MiniZod DemoClient.demo_stringify_result Demo.demo_tools
              "searchFlights" Demo.full_args "call_1" "uuid-3" DemoClient.chat0 _ eq_refl)
    as (st' & Hout & Hmsgs & Hload & _).
  exists st'. split; [exact Hout|]. split; [|exact Hload].
  exact (f_equal (fmap ChatService.id) Hmsgs).
Defined.

Lemma sendMessage_total_witness :
  exists st',
    outcome (@ChatService.sendMessage Demo.MiniZod DemoClient.demo_parse_response DemoClient.demo_parse
               DemoClient.demo_get_message "Find me a flight" [] "uuid-1" "uuid-2"
               (ChatService.FetchResponse None) DemoClient.chat0) = inr st' /\
    ChatService.isLoading st' = false /\
    ChatService.content <$> ChatService.messages st'
    = [Some "Find me a flight"; Some "Sorry, I encountered an error. Please try again."].
Proof.
  destruct (@sendMessage_total Demo.MiniZod DemoClient.demo_parse_response DemoClient.demo_parse
              DemoClient.demo_get_message "Find me a flight" [] "uuid-1" "uuid-2"
              (ChatService.FetchResponse None) DemoClient.chat0)
    as (st' & Hout & Hload & _ & _ & Hfail).
  exists st'. split; [exact Hout|]. split; [exact Hload|].
  exact (f_equal (fmap ChatService.content) (Hfail I)).
Defined.

Lemma panel_sendMessage_public_tools_witness :
  @ChatService.panel_sendMessage Demo.MiniZod DemoClient.demo_parse_response DemoClient.demo_parse
    DemoClient.demo_get_message DemoClient.demo_trim DemoClient.mixed_tools
    "   " "uuid-1" "uuid-2" (ChatService.FetchResponse None) DemoClient.chat0
  = ([], inr ("   ", DemoClient.chat0)) /\
  exists request,
    filter (fun e => ChatService.is_Fetch e = true)
      (trace (@ChatService.panel_sendMessage Demo.MiniZod DemoClient.demo_parse_response
                DemoClient.demo_parse DemoClient.demo_get_message DemoClient.demo_trim
                DemoClient.mixed_tools " Find me a flight " "uuid-1" "uuid-2"
                (ChatService.FetchResponse None) DemoClient.chat0))
      = [ChatService.Fetch ChatService.AGENT_API_URL request] /\
    ToolRegistry.a_name <$> ChatService.rq_tool_definitions request = ["searchFlights"].
Proof.
  split.
  - exact (proj1 (@panel_sendMessage_public_tools Demo.MiniZod DemoClient.demo_parse_response
                    DemoClient.demo_parse DemoClient.demo_get_message DemoClient.demo_trim
                    DemoClient.mixed_tools "   " "uuid-1" "uuid-2"
                    (ChatService.FetchResponse None) DemoClient.chat0) eq_refl).
  - destruct (proj2 (@panel_sendMessage_public_tools Demo.MiniZod DemoClient.demo_parse_response
                       DemoClient.demo_parse DemoClient.demo_get_message DemoClient.demo_trim
                       DemoClient.mixed_tools " Find me a flight " "uuid-1" "uuid-2"
                       (ChatService.FetchResponse None) DemoClient.chat0))
      as (st' & request & _ & Hposts & Htools); [discriminate|].
    exists request. split; [exact Hposts|].
    exact (f_equal (fmap ToolRegistry.a_name) Htools).
Defined.
